(** * geomaps-sdk: a shallow embedding of [geomaps_sdk/maps_sdk.py]

    The SDK maps a uniform location interface onto one vendor's HTTP JSON
    API.  Python values are dynamically typed, so decoded JSON and caller
    supplied objects are embedded in one value type [pyval]; exceptions are
    an error type [exn]; the HTTP session is an explicit function from
    requests to outcomes, and every request issued is appended to a log that
    is threaded through the operations. *)

From Stdlib Require Import ZArith QArith Qround Qabs Lia.
From Stdlib Require Import Floats.SpecFloat.
From stdpp Require Import base option list strings gmap pretty.

Set Warnings "-register-all".
Open Scope string_scope.
Open Scope Z_scope.

(** ** Python values *)

(** What [json.loads] can produce, which is also what a caller can put into
    a mapping: [None], booleans, integers, binary64 floats, strings, lists
    and string-keyed dictionaries.  Strings are sequences of 8-bit
    characters. *)
Inductive pyval : Type :=
  | PyNone
  | PyBool (b : bool)
  | PyInt (z : Z)
  | PyFloat (f : spec_float)
  | PyStr (s : string)
  | PyList (l : list pyval)
  | PyDict (d : gmap string pyval).

(** Built-in and SDK exceptions.  The four SDK kinds derive from
    [LocationSDKError]; the others are Python built-ins raised by dynamic
    operations on ill-typed values. *)
Inductive exn : Type :=
  | ValidationError (msg : string)
  | AuthenticationError (msg : string)
  | RateLimitError (msg : string)
  | APIError (msg : string)
  | TypeError (msg : string)
  | AttributeError (msg : string)
  | KeyError (msg : string)
  | IndexError (msg : string)
  | ValueError (msg : string)
  | OverflowError (msg : string).

(** A computation that returns or raises. *)
Inductive result (A : Type) : Type :=
  | Ok (a : A)
  | Raise (e : exn).
Arguments Ok {A} a.
Arguments Raise {A} e.

Definition rbind {A B} (r : result A) (k : A -> result B) : result B :=
  match r with
  | Ok a => k a
  | Raise e => Raise e
  end.

Declare Scope py_scope.
Delimit Scope py_scope with py.
Notation "x <- c1 ;; c2" := (rbind c1 (fun x => c2))
  (at level 100, c1 at next level, right associativity) : py_scope.
Notation "c1 ;;; c2" := (rbind c1 (fun _ => c2))
  (at level 100, right associativity) : py_scope.
Open Scope py_scope.

Definition is_ok {A} (r : result A) : bool :=
  match r with Ok _ => true | Raise _ => false end.

Definition default_or {A} (o : option A) (d : A) : A :=
  match o with Some a => a | None => d end.

(** ** Numbers

    Python floats are IEEE binary64 values; their arithmetic is the
    correctly rounded arithmetic of [SpecFloat] at precision 53.  Python
    integers are unbounded. *)

Definition f64_mul : spec_float -> spec_float -> spec_float := SFmul 53 1024.
Definition f64_div : spec_float -> spec_float -> spec_float := SFdiv 53 1024.

(** An integer as an unrounded significand with exponent 0. *)
Definition Z_as_SF (z : Z) : spec_float :=
  match z with
  | Z0 => S754_zero false
  | Zpos p => S754_finite false p 0
  | Zneg p => S754_finite true p 0
  end.

(** [float(k)] for an integer: rounded to nearest even, [OverflowError]
    beyond the float range. *)
Definition float_of_int (k : Z) : result spec_float :=
  match binary_normalize 53 1024 k 0 false with
  | S754_infinity _ => Raise (OverflowError "int too large to convert to float")
  | f => Ok f
  end.

(** [a / b] on two integers, [b] positive: the correctly rounded quotient. *)
Definition int_true_divide (a : Z) (b : positive) : result spec_float :=
  match f64_div (Z_as_SF a) (S754_finite false b 0) with
  | S754_infinity _ =>
      Raise (OverflowError "integer division result too large for a float")
  | q => Ok q
  end.

(** [int(f)]: truncation toward zero of the exact value [±m·2^e]. *)
Definition int_of_float (f : spec_float) : result Z :=
  match f with
  | S754_nan => Raise (ValueError "cannot convert float NaN to integer")
  | S754_infinity _ =>
      Raise (OverflowError "cannot convert float infinity to integer")
  | S754_zero _ => Ok 0
  | S754_finite s m e =>
      if 0 <=? e then Ok (cond_Zopp s (Zpos m) * 2 ^ e)
      else Ok (Z.quot (cond_Zopp s (Zpos m)) (2 ^ (- e)))
  end.

(** Exact comparison of a float with an integer, as [float.__le__] and
    friends do when the other operand is an [int]; [None] on NaN. *)
Definition float_cmp_int (f : spec_float) (c : Z) : option comparison :=
  match f with
  | S754_nan => None
  | S754_infinity s => Some (if s then Lt else Gt)
  | S754_zero _ => Some (0 ?= c)
  | S754_finite s m e =>
      if 0 <=? e then Some (cond_Zopp s (Zpos m) * 2 ^ e ?= c)
      else Some (cond_Zopp s (Zpos m) ?= c * 2 ^ (- e))
  end.

(** The real numbers of Python: [int] and [float] (the annotation [float]
    admits both). *)
Inductive pynum : Type :=
  | PInt (z : Z)
  | PFloat (f : spec_float).

(** [x * k] for an integer literal [k]. *)
Definition num_mul_int (x : pynum) (k : Z) : result pynum :=
  match x with
  | PInt z => Ok (PInt (z * k))
  | PFloat f => fk <- float_of_int k ;; Ok (PFloat (f64_mul f fk))
  end.

(** [int(x)]. *)
Definition py_int (x : pynum) : result Z :=
  match x with
  | PInt z => Ok z
  | PFloat f => int_of_float f
  end.

(** The rational value of a finite float, and of a number. *)
Definition SF2Q (f : spec_float) : option Q :=
  match f with
  | S754_nan | S754_infinity _ => None
  | S754_zero _ => Some 0%Q
  | S754_finite s m e =>
      if 0 <=? e then Some (inject_Z (cond_Zopp s (Zpos m) * 2 ^ e))
      else Some (cond_Zopp s (Zpos m) # Z.to_pos (2 ^ (- e)))
  end.

Definition num_value (x : pynum) : option Q :=
  match x with
  | PInt z => Some (inject_Z z)
  | PFloat f => SF2Q f
  end.

(** Truncation toward zero of a rational. *)
Definition Qtrunc (q : Q) : Z := Z.quot (Qnum q) (Zpos (Qden q)).

(** ** Dynamic operations on values *)

Definition py_type_name (v : pyval) : string :=
  match v with
  | PyNone => "NoneType"
  | PyBool _ => "bool"
  | PyInt _ => "int"
  | PyFloat _ => "float"
  | PyStr _ => "str"
  | PyList _ => "list"
  | PyDict _ => "dict"
  end.

(** Truth value, as tested by [if v] and [not v]. *)
Definition py_truthy (v : pyval) : bool :=
  match v with
  | PyNone => false
  | PyBool b => b
  | PyInt z => negb (z =? 0)
  | PyFloat (S754_zero _) => false
  | PyFloat _ => true
  | PyStr s => negb (String.eqb s "")
  | PyList l => match l with [] => false | _ => true end
  | PyDict d => negb (bool_decide (d = ∅))
  end.

(** [len(v)]. *)
Definition py_len (v : pyval) : result Z :=
  match v with
  | PyStr s => Ok (Z.of_nat (String.length s))
  | PyList l => Ok (Z.of_nat (length l))
  | PyDict d => Ok (Z.of_nat (size d))
  | _ => Raise (TypeError ("object of type '" +:+ py_type_name v +:+ "' has no len()"))
  end.

(** [k in v] for a string [k]: key membership on a dictionary, element
    membership on a list, substring test on a string. *)
Definition py_contains (k : string) (v : pyval) : result bool :=
  match v with
  | PyDict d => Ok (bool_decide (is_Some (d !! k)))
  | PyList l =>
      Ok (existsb (fun x => match x with PyStr s => String.eqb s k | _ => false end) l)
  | PyStr s => Ok (match String.index 0 k s with Some _ => true | None => false end)
  | _ => Raise (TypeError ("argument of type '" +:+ py_type_name v +:+ "' is not iterable"))
  end.

(** [v[k]] for a string [k]. *)
Definition py_getitem (v : pyval) (k : string) : result pyval :=
  match v with
  | PyDict d =>
      match d !! k with
      | Some x => Ok x
      | None => Raise (KeyError k)
      end
  | PyList _ => Raise (TypeError "list indices must be integers or slices, not str")
  | PyStr _ => Raise (TypeError "string indices must be integers, not 'str'")
  | _ => Raise (TypeError ("'" +:+ py_type_name v +:+ "' object is not subscriptable"))
  end.

(** [v[i]] for a natural number [i]. *)
Definition py_index (v : pyval) (i : nat) : result pyval :=
  match v with
  | PyList l =>
      match l !! i with
      | Some x => Ok x
      | None => Raise (IndexError "list index out of range")
      end
  | PyStr s =>
      match String.get i s with
      | Some c => Ok (PyStr (String c EmptyString))
      | None => Raise (IndexError "string index out of range")
      end
  | PyDict _ => Raise (KeyError (pretty i))
  | _ => Raise (TypeError ("'" +:+ py_type_name v +:+ "' object is not subscriptable"))
  end.

(** [v.get(k, default)]: only dictionaries have the method. *)
Definition py_get (v : pyval) (k : string) (default : pyval) : result pyval :=
  match v with
  | PyDict d => Ok (default_or (d !! k) default)
  | _ => Raise (AttributeError ("'" +:+ py_type_name v +:+ "' object has no attribute 'get'"))
  end.

(** The elements a [for] loop visits.  A dictionary yields its keys and a
    string its characters; both are strings, on which every loop body of
    the SDK raises at once, so the order of the keys plays no role. *)
Definition py_iter (v : pyval) : result (list pyval) :=
  match v with
  | PyList l => Ok l
  | PyDict d => Ok (PyStr <$> (map_to_list d).*1)
  | PyStr s => Ok ((fun c => PyStr (String c EmptyString)) <$> String.list_ascii_of_string s)
  | _ => Raise (TypeError ("'" +:+ py_type_name v +:+ "' object is not iterable"))
  end.

(** Run a loop body over a list, stopping at the first exception. *)
Fixpoint for_each {A B} (body : A -> result B) (l : list A) : result (list B) :=
  match l with
  | [] => Ok []
  | x :: l' => y <- body x ;; ys <- for_each body l' ;; Ok (y :: ys)
  end.

(** [c <= v] and [v <= c] for an integer literal [c].  Booleans are
    integers; a float is compared by its exact value and NaN compares
    false; any other operand raises [TypeError]. *)
Definition py_le_int_val (c : Z) (v : pyval) : result bool :=
  match v with
  | PyBool b => Ok (c <=? Z.b2z b)
  | PyInt z => Ok (c <=? z)
  | PyFloat f =>
      Ok (match float_cmp_int f c with Some (Gt | Eq) => true | _ => false end)
  | _ => Raise (TypeError ("'<=' not supported between instances of 'int' and '"
                           +:+ py_type_name v +:+ "'"))
  end.

Definition py_le_val_int (v : pyval) (c : Z) : result bool :=
  match v with
  | PyBool b => Ok (Z.b2z b <=? c)
  | PyInt z => Ok (z <=? c)
  | PyFloat f =>
      Ok (match float_cmp_int f c with Some (Lt | Eq) => true | _ => false end)
  | _ => Raise (TypeError ("'<=' not supported between instances of '"
                           +:+ py_type_name v +:+ "' and 'int'"))
  end.

(** The chained comparison [lo <= v <= hi]: the second test is evaluated
    only when the first holds. *)
Definition py_between (lo : Z) (v : pyval) (hi : Z) : result bool :=
  a <- py_le_int_val lo v ;;
  if a then py_le_val_int v hi else Ok false.

(** [v / k] for a positive integer literal [k]. *)
Definition py_truediv_int (v : pyval) (k : positive) : result spec_float :=
  match v with
  | PyBool b => int_true_divide (Z.b2z b) k
  | PyInt z => int_true_divide z k
  | PyFloat f => fk <- float_of_int (Zpos k) ;; Ok (f64_div f fk)
  | _ => Raise (TypeError ("unsupported operand type(s) for /: '"
                           +:+ py_type_name v +:+ "' and 'int'"))
  end.

(** The rational value of a value that is a finite number. *)
Definition val_value (v : pyval) : option Q :=
  match v with
  | PyBool b => Some (inject_Z (Z.b2z b))
  | PyInt z => Some (inject_Z z)
  | PyFloat f => SF2Q f
  | _ => None
  end.

(** ** Data models and enums *)

Inductive TravelMode : Type := DRIVING | WALKING | CYCLING | TRUCK.

Definition TravelMode_value (m : TravelMode) : string :=
  match m with
  | DRIVING => "drive"
  | WALKING => "walk"
  | CYCLING => "bike"
  | TRUCK => "truck"
  end.

Inductive DistanceUnit : Type := KILOMETERS | MILES | METERS.

Definition DistanceUnit_value (u : DistanceUnit) : string :=
  match u with
  | KILOMETERS => "km"
  | MILES => "mi"
  | METERS => "m"
  end.

(** The dataclass does not check its fields: [geocode] stores whatever the
    response holds at the coordinate positions. *)
Record GeoPoint : Type := mkGeoPoint {
  latitude : pyval;
  longitude : pyval
}.

Definition GeoPoint_to_dict (p : GeoPoint) : gmap string pyval :=
  {[ "latitude" := latitude p; "longitude" := longitude p ]}.

(** Every field is what [props.get] returned, [PyNone] when absent. *)
Record Address : Type := mkAddress {
  street : pyval;
  house_number : pyval;
  city : pyval;
  postcode : pyval;
  country : pyval;
  country_code : pyval;
  state : pyval;
  formatted_address : pyval
}.

Record GeocodingResult : Type := mkGeocodingResult {
  location : GeoPoint;
  address : Address;
  confidence : pyval;
  confidence_building_level : pyval;
  confidence_street_level : pyval;
  confidence_city_level : pyval;
  raw_data : pyval
}.

Module AutocompleteResult.
Record t : Type := mk {
  address : Address;
  location : GeoPoint;
  raw_data : pyval
}.
End AutocompleteResult.

(** [RouteInfo] stores kilometres and minutes; both fields are numbers. *)
Record RouteInfo : Type := mkRouteInfo {
  distance_km : pynum;
  duration_minutes : pynum
}.

(** [RouteInfo.__init__].  [distance] and [duration] are the raw metres and
    seconds, [PyNone] when not supplied; [route] passes decoded JSON here,
    and the division raises on anything that is not a number.  The keyword
    arguments are stored as they are. *)
Definition RouteInfo_init (distance duration : pyval)
    (distance_km duration_minutes : option pynum) : result RouteInfo :=
  km <- match distance_km with
        | Some x => Ok x
        | None =>
            match distance with
            | PyNone => Raise (TypeError "Either distance or distance_km must be provided")
            | d => q <- py_truediv_int d 1000 ;; Ok (PFloat q)
            end
        end ;;
  mins <- match duration_minutes with
          | Some x => Ok x
          | None =>
              match duration with
              | PyNone => Raise (TypeError "Either duration or duration_minutes must be provided")
              | d => q <- py_truediv_int d 60 ;; Ok (PFloat q)
              end
          end ;;
  Ok {| distance_km := km; duration_minutes := mins |}.

(** The [distance] property: [int(self.distance_km * 1000)]. *)
Definition RouteInfo_distance (r : RouteInfo) : result Z :=
  p <- num_mul_int (distance_km r) 1000 ;; py_int p.

(** The [duration] property: [int(self.duration_minutes * 60)]. *)
Definition RouteInfo_duration (r : RouteInfo) : result Z :=
  p <- num_mul_int (duration_minutes r) 60 ;; py_int p.

Definition RouteInfo_distance_meters (r : RouteInfo) : result Z :=
  RouteInfo_distance r.

Definition RouteInfo_duration_seconds (r : RouteInfo) : result Z :=
  RouteInfo_duration r.

(** A location argument: a [GeoPoint] instance or any other value. *)
Inductive pyobj : Type :=
  | ObjGeoPoint (p : GeoPoint)
  | ObjValue (v : pyval).

Record DistanceMatrixResult : Type := mkDistanceMatrixResult {
  distances : list (list pyval);
  durations : list (list pyval);
  unit_label : string;
  sources : option (list pyobj);
  targets : option (list pyobj)
}.

(** ** Point validation *)

(** [GeoapifyProvider._validate_location]. *)
Definition _validate_location (location : pyobj) (name : string) : result unit :=
  coords <-
    match location with
    | ObjValue (PyDict d) =>
        if negb (bool_decide (is_Some (d !! "latitude")))
           || negb (bool_decide (is_Some (d !! "longitude")))
        then Raise (ValidationError (name +:+ " must have 'latitude' and 'longitude' keys"))
        else
          lat <- py_getitem (PyDict d) "latitude" ;;
          lon <- py_getitem (PyDict d) "longitude" ;;
          Ok (lat, lon)
    | ObjGeoPoint p => Ok (latitude p, longitude p)
    | ObjValue _ =>
        Raise (ValidationError (name +:+ " must be a GeoPoint or dict with latitude and longitude"))
    end ;;
  lat_ok <- py_between (-90) (fst coords) 90 ;;
  if negb lat_ok
  then Raise (ValidationError (name +:+ " latitude must be between -90 and 90"))
  else
    lon_ok <- py_between (-180) (snd coords) 180 ;;
    if negb lon_ok
    then Raise (ValidationError (name +:+ " longitude must be between -180 and 180"))
    else Ok tt.

(** The loop of [_validate_locations_list]: a [ValidationError] of an
    element is caught and raised again with the same message. *)
Fixpoint validate_from (name : string) (idx : nat) (locations : list pyobj)
    : result unit :=
  match locations with
  | [] => Ok tt
  | location :: rest =>
      match _validate_location location (name +:+ "[" +:+ pretty idx +:+ "]") with
      | Raise (ValidationError msg) => Raise (ValidationError msg)
      | Raise e => Raise e
      | Ok _ => validate_from name (S idx) rest
      end
  end.

(** [GeoapifyProvider._validate_locations_list]; the argument is a list, so
    the [isinstance] test passes. *)
Definition _validate_locations_list (locations : list pyobj) (name : string)
    : result unit :=
  match locations with
  | [] => Raise (ValidationError (name +:+ " must not be empty"))
  | _ => validate_from name 0 locations
  end.

(** ** The HTTP session *)

Inductive http_method : Type := GET | POST.

Record Request : Type := mkRequest {
  req_method : http_method;
  req_url : string;
  req_params : option (gmap string pyval);
  req_json : option pyval;
  req_headers : option (gmap string string);
  req_timeout : Z
}.

(** What the [requests] library raises, by the first [except] clause of
    [_make_request] that matches it: a [Timeout], a [ConnectionError] that
    is no timeout, any other [RequestException], or a [ValueError] that is
    no [RequestException].  The payload is [str(e)]. *)
Inductive requests_exc : Type :=
  | ExcTimeout (s : string)
  | ExcConnectionError (s : string)
  | ExcRequestException (s : string)
  | ExcValueError (s : string).

(** A response: status code, body text, and what [response.json()] gives
    (the decoded body, or the exception of a body that does not decode). *)
Record Response : Type := mkResponse {
  status_code : Z;
  text : string;
  json : requests_exc + pyval
}.

Definition Session : Type := Request -> requests_exc + Response.

Record Provider : Type := mkProvider {
  api_key : string;
  timeout : Z;
  session : Session
}.

(** [BaseLocationProvider.__init__] for a string key. *)
Definition Provider_init (key : string) (tmo : Z) (s : Session) : result Provider :=
  if String.eqb key "" then Raise (ValidationError "API key must be a non-empty string")
  else Ok {| api_key := key; timeout := tmo; session := s |}.

(** Operations of the provider return or raise, and extend the log of the
    requests issued so far. *)
Definition M (A : Type) : Type := list Request -> result A * list Request.

Definition mret {A} (a : A) : M A := fun log => (Ok a, log).
Definition mraise {A} (e : exn) : M A := fun log => (Raise e, log).
Definition lift {A} (r : result A) : M A := fun log => (r, log).
Definition mbind {A B} (c : M A) (k : A -> M B) : M B :=
  fun log =>
    match c log with
    | (Ok a, log') => k a log'
    | (Raise e, log') => (Raise e, log')
    end.

Notation "x <~ c1 ;; c2" := (mbind c1 (fun x => c2))
  (at level 100, c1 at next level, right associativity) : py_scope.

Definition BASE_URL : string := "https://api.geoapify.com/v1".

Section Runtime.

(** String primitives of the Python runtime that the SDK calls:
    [str.upper], [str.strip], and the text an f-string gives a value. *)
Variable str_upper : string -> string.
Variable str_strip : string -> string.
Variable py_format : pyval -> string.

(** The [except] clauses of [_make_request]. *)
Definition translate_exc (self : Provider) (e : requests_exc) : exn :=
  match e with
  | ExcTimeout _ =>
      APIError ("API request timed out after " +:+ pretty (timeout self) +:+ " seconds")
  | ExcConnectionError s => APIError ("Connection error: " +:+ s)
  | ExcRequestException s => APIError ("Request failed: " +:+ s)
  | ExcValueError s => APIError ("Failed to parse API response: " +:+ s)
  end.

(** The body of the [try] block once the response is there. *)
Definition check_response (self : Provider) (response : Response) : result pyval :=
  if (status_code response =? 401) || (status_code response =? 403)
  then Raise (AuthenticationError "Invalid API key or insufficient permissions")
  else if status_code response =? 429
  then Raise (RateLimitError "API rate limit exceeded. Please try again later.")
  else if 400 <=? status_code response
  then Raise (APIError ("API request failed with status "
                        +:+ pretty (status_code response) +:+ ": " +:+ text response))
  else
    match json response with
    | inr body => Ok body
    | inl e => Raise (translate_exc self e)
    end.

Definition send (self : Provider) (req : Request) : M pyval :=
  fun log =>
    (match session self req with
     | inr response => check_response self response
     | inl e => Raise (translate_exc self e)
     end, (log ++ [req])%list).

(** [BaseLocationProvider._make_request]. *)
Definition _make_request (self : Provider) (url : string) (method : string)
    (params : option (gmap string pyval)) (data : option pyval)
    (headers : option (gmap string string)) : M pyval :=
  if String.eqb (str_upper method) "GET" then
    send self {| req_method := GET; req_url := url; req_params := params;
                 req_json := None; req_headers := headers;
                 req_timeout := timeout self |}
  else if String.eqb (str_upper method) "POST" then
    send self {| req_method := POST; req_url := url; req_params := params;
                 req_json := data; req_headers := headers;
                 req_timeout := timeout self |}
  else mraise (ValidationError ("Unsupported HTTP method: " +:+ method)).

(** [not query or not query.strip()] for a string. *)
Definition blank_query (query : string) : bool :=
  String.eqb query "" || String.eqb (str_strip query) "".

(** The [Address(...)] built from the properties of a feature. *)
Definition address_of_props (props : pyval) : result Address :=
  a1 <- py_get props "street" PyNone ;;
  a2 <- py_get props "housenumber" PyNone ;;
  a3 <- py_get props "city" PyNone ;;
  a4 <- py_get props "postcode" PyNone ;;
  a5 <- py_get props "country" PyNone ;;
  a6 <- py_get props "country_code" PyNone ;;
  a7 <- py_get props "state" PyNone ;;
  a8 <- py_get props "formatted" PyNone ;;
  Ok {| street := a1; house_number := a2; city := a3; postcode := a4;
        country := a5; country_code := a6; state := a7;
        formatted_address := a8 |}.

(** The coordinates of a feature and the test
    [coords and len(coords) >= 2]. *)
Definition feature_coords (feature : pyval) : result pyval :=
  geometry <- py_get feature "geometry" (PyDict ∅) ;;
  py_get geometry "coordinates" (PyList []).

Definition usable_coords (coords : pyval) : result bool :=
  if py_truthy coords then n <- py_len coords ;; Ok (2 <=? n) else Ok false.

(** [GeoPoint(latitude=coords[1], longitude=coords[0])]. *)
Definition point_of_coords (coords : pyval) : result GeoPoint :=
  lat <- py_index coords 1 ;;
  lon <- py_index coords 0 ;;
  Ok {| latitude := lat; longitude := lon |}.

(** The loop body of [geocode]: [None] when the feature is skipped. *)
Definition geocode_feature (feature : pyval) : result (option GeocodingResult) :=
  props <- py_get feature "properties" (PyDict ∅) ;;
  coords <- feature_coords feature ;;
  usable <- usable_coords coords ;;
  if usable then
    loc <- point_of_coords coords ;;
    addr <- address_of_props props ;;
    rank <- py_get props "rank" (PyDict ∅) ;;
    c1 <- py_get rank "confidence" PyNone ;;
    c2 <- py_get rank "confidence_building_level" PyNone ;;
    c3 <- py_get rank "confidence_street_level" PyNone ;;
    c4 <- py_get rank "confidence_city_level" PyNone ;;
    Ok (Some {| location := loc; address := addr; confidence := c1;
                confidence_building_level := c2;
                confidence_street_level := c3;
                confidence_city_level := c4; raw_data := feature |})
  else Ok None.

(** The loop body of [autocomplete]. *)
Definition autocomplete_feature (feature : pyval)
    : result (option AutocompleteResult.t) :=
  props <- py_get feature "properties" (PyDict ∅) ;;
  coords <- feature_coords feature ;;
  usable <- usable_coords coords ;;
  if usable then
    loc <- point_of_coords coords ;;
    addr <- address_of_props props ;;
    Ok (Some {| AutocompleteResult.address := addr;
                AutocompleteResult.location := loc;
                AutocompleteResult.raw_data := feature |})
  else Ok None.

(** The loop body of [reverse_geocode]. *)
Definition reverse_feature (feature : pyval) : result Address :=
  props <- py_get feature "properties" (PyDict ∅) ;;
  address_of_props props.

(** [if "features" in response: for feature in response["features"]: ...]
    with the results appended in order. *)
Definition over_features {A} (body : pyval -> result A) (response : pyval)
    : result (list A) :=
  has <- py_contains "features" response ;;
  if has then
    features <- py_getitem response "features" ;;
    items <- py_iter features ;;
    for_each body items
  else Ok [].

(** [GeoapifyProvider.geocode]. *)
Definition geocode (self : Provider) (query : string) : M (list GeocodingResult) :=
  if blank_query query
  then mraise (ValidationError "Query must be a non-empty string")
  else
    let url := BASE_URL +:+ "/geocode/search" in
    let params : gmap string pyval :=
      {[ "text" := PyStr query; "apiKey" := PyStr (api_key self);
         "format" := PyStr "json" ]} in
    response <~ _make_request self url "GET" (Some params) None None ;;
    lift (found <- over_features geocode_feature response ;; Ok (omap id found)).

(** [location.latitude] and [location.longitude]: attributes of a
    [GeoPoint] only. *)
Definition attr_latitude (location : pyobj) : result pyval :=
  match location with
  | ObjGeoPoint p => Ok (latitude p)
  | ObjValue v =>
      Raise (AttributeError ("'" +:+ py_type_name v +:+ "' object has no attribute 'latitude'"))
  end.

Definition attr_longitude (location : pyobj) : result pyval :=
  match location with
  | ObjGeoPoint p => Ok (longitude p)
  | ObjValue v =>
      Raise (AttributeError ("'" +:+ py_type_name v +:+ "' object has no attribute 'longitude'"))
  end.

(** [GeoapifyProvider.reverse_geocode]. *)
Definition reverse_geocode (self : Provider) (location : pyobj) : M (list Address) :=
  _ <~ lift (_validate_location location "location") ;;
  let url := BASE_URL +:+ "/geocode/reverse" in
  lat <~ lift (attr_latitude location) ;;
  lon <~ lift (attr_longitude location) ;;
  let params : gmap string pyval :=
    {[ "lat" := lat; "lon" := lon; "apiKey" := PyStr (api_key self);
       "format" := PyStr "json" ]} in
  response <~ _make_request self url "GET" (Some params) None None ;;
  lift (over_features reverse_feature response).

(** [GeoapifyProvider.autocomplete]. *)
Definition autocomplete (self : Provider) (query : string) (limit : Z)
    : M (list AutocompleteResult.t) :=
  if blank_query query
  then mraise (ValidationError "Query must be a non-empty string")
  else if (limit <? 1) || (50 <? limit)
  then mraise (ValidationError "Limit must be between 1 and 50")
  else
    let url := BASE_URL +:+ "/geocode/autocomplete" in
    let params : gmap string pyval :=
      {[ "text" := PyStr query; "apiKey" := PyStr (api_key self);
         "format" := PyStr "json"; "limit" := PyInt limit ]} in
    response <~ _make_request self url "GET" (Some params) None None ;;
    lift (found <- over_features autocomplete_feature response ;; Ok (omap id found)).

(** [f"{loc.latitude},{loc.longitude}"]. *)
Definition format_location (loc : pyobj) : result string :=
  lat <- attr_latitude loc ;;
  lon <- attr_longitude loc ;;
  Ok (py_format lat +:+ "," +:+ py_format lon).

(** ["|".join([... for loc in locations])]. *)
Definition join_locations (locations : list pyobj) : result string :=
  parts <- for_each format_location locations ;;
  Ok (String.concat "|" parts).

(** One cell of the matrix: [(target.get("distance", 0),
    target.get("time", 0))]. *)
Definition matrix_cell (target : pyval) : result (pyval * pyval) :=
  d <- py_get target "distance" (PyInt 0) ;;
  t <- py_get target "time" (PyInt 0) ;;
  Ok (d, t).

Definition matrix_row (source_matrix : pyval) : result (list (pyval * pyval)) :=
  cells <- py_iter source_matrix ;;
  for_each matrix_cell cells.

(** The two grids parsed from the response. *)
Definition parse_matrix (response : pyval)
    : result (list (list pyval) * list (list pyval)) :=
  has <- py_contains "sources_to_targets" response ;;
  if has then
    stt <- py_getitem response "sources_to_targets" ;;
    rows <- py_iter stt ;;
    grid <- for_each matrix_row rows ;;
    Ok (map (map fst) grid, map (map snd) grid)
  else Ok ([], []).

(** [GeoapifyProvider.distance_matrix]. *)
Definition distance_matrix (self : Provider) (srcs tgts : list pyobj)
    (mode : TravelMode) (units : DistanceUnit) : M DistanceMatrixResult :=
  _ <~ lift (_validate_locations_list srcs "sources") ;;
  _ <~ lift (_validate_locations_list tgts "targets") ;;
  if (10 <? Z.of_nat (length srcs)) || (10 <? Z.of_nat (length tgts))
  then mraise (ValidationError "Maximum 10 sources and 10 targets are supported per request")
  else
    let url := BASE_URL +:+ "/routematrix" in
    sources_str <~ lift (join_locations srcs) ;;
    targets_str <~ lift (join_locations tgts) ;;
    let params : gmap string pyval :=
      {[ "sources" := PyStr sources_str; "targets" := PyStr targets_str;
         "apiKey" := PyStr (api_key self) ]} in
    response <~ _make_request self url "GET" (Some params) None None ;;
    grids <~ lift (parse_matrix response) ;;
    mret {| distances := fst grids; durations := snd grids;
            unit_label := "metric"; sources := Some srcs;
            targets := Some tgts |}.

(** The tail of [route], from the decoded response on.  The first
    conjunct of the test is the string literal ["features"], which is
    true. *)
Definition parse_route (response : pyval) : result RouteInfo :=
  found <- (if py_truthy (PyStr "features")
            then features <- py_get response "features" (PyList []) ;;
                 n <- py_len features ;;
                 Ok (0 <? n)
            else Ok false) ;;
  if found then
    fs <- py_getitem response "features" ;;
    feature <- py_index fs 0 ;;
    props <- py_get feature "properties" (PyDict ∅) ;;
    distance <- py_get props "distance" (PyInt 0) ;;
    duration <- py_get props "time" (PyInt 0) ;;
    RouteInfo_init distance duration None None
  else Raise (APIError "No route found between the provided locations").

(** [GeoapifyProvider.route]. *)
Definition route (self : Provider) (source target : pyobj) (mode : TravelMode)
    : M RouteInfo :=
  _ <~ lift (_validate_location source "source") ;;
  _ <~ lift (_validate_location target "target") ;;
  let url := BASE_URL +:+ "/routing" in
  from <~ lift (format_location source) ;;
  to <~ lift (format_location target) ;;
  let params : gmap string pyval :=
    {[ "from" := PyStr from; "to" := PyStr to;
       "mode" := PyStr (TravelMode_value mode);
       "apiKey" := PyStr (api_key self) ]} in
  response <~ _make_request self url "GET" (Some params) None None ;;
  lift (parse_route response).

End Runtime.

(** ** A runtime for the ASCII fragment

    [str.upper] and [str.strip] on ASCII text, and the f-string text of
    integers, strings, booleans and [None]; used to run the model on
    concrete calls. *)

Definition ascii_upper_char (c : Ascii.ascii) : Ascii.ascii :=
  let n := Ascii.nat_of_ascii c in
  if (97 <=? n)%nat && (n <=? 122)%nat then Ascii.ascii_of_nat (n - 32) else c.

Fixpoint ascii_upper (s : string) : string :=
  match s with
  | EmptyString => EmptyString
  | String c s' => String (ascii_upper_char c) (ascii_upper s')
  end.

Definition ascii_space (c : Ascii.ascii) : bool :=
  let n := Ascii.nat_of_ascii c in
  ((9 <=? n)%nat && (n <=? 13)%nat) || ((28 <=? n)%nat && (n <=? 32)%nat).

Fixpoint lstrip (s : string) : string :=
  match s with
  | EmptyString => EmptyString
  | String c s' => if ascii_space c then lstrip s' else s
  end.

Definition ascii_strip (s : string) : string :=
  String.rev (lstrip (String.rev (lstrip s))).

Definition ascii_format (v : pyval) : string :=
  match v with
  | PyNone => "None"
  | PyBool true => "True"
  | PyBool false => "False"
  | PyInt z => pretty z
  | PyStr s => s
  | _ => "?"
  end.

(** ** Notions used by the statements *)

(** The value of [distance_km * 1000], resp. [duration_minutes * 60], as
    Python computes the product, when it is finite. *)
Definition RouteInfo_meters_value (r : RouteInfo) : option Q :=
  match num_mul_int (distance_km r) 1000 with
  | Ok p => num_value p
  | Raise _ => None
  end.

Definition RouteInfo_seconds_value (r : RouteInfo) : option Q :=
  match num_mul_int (duration_minutes r) 60 with
  | Ok p => num_value p
  | Raise _ => None
  end.

(** A raw [float | None] argument of [RouteInfo]. *)
Definition raw_arg (o : option spec_float) : pyval :=
  match o with
  | Some f => PyFloat f
  | None => PyNone
  end.

(** [f / k] on a float, for an integer literal [k] within float range. *)
Definition float_div_int (f : spec_float) (k : positive) : spec_float :=
  f64_div f (binary_normalize 53 1024 (Zpos k) 0 false).

(** The latitude and longitude that point validation reads: the two
    attributes of a [GeoPoint], the two entries of a mapping that has both
    keys. *)
Definition location_coords (o : pyobj) : option (pyval * pyval) :=
  match o with
  | ObjGeoPoint p => Some (latitude p, longitude p)
  | ObjValue (PyDict d) =>
      match d !! "latitude", d !! "longitude" with
      | Some lat, Some lon => Some (lat, lon)
      | _, _ => None
      end
  | ObjValue _ => None
  end.

(** A value that is a number: [bool], [int] or [float]. *)
Definition is_number (v : pyval) : Prop :=
  match v with
  | PyBool _ | PyInt _ | PyFloat _ => True
  | _ => False
  end.

(** A location whose coordinates, where it has them, are numbers, as the
    annotations of [GeoPoint] require. *)
Definition numeric_location (o : pyobj) : Prop :=
  match location_coords o with
  | Some (lat, lon) => is_number lat /\ is_number lon
  | None => True
  end.

(** The session answers every request with a response that
    [_make_request] accepts and decodes to [body]. *)
Definition decoded_response (self : Provider) (body : pyval) : Prop :=
  forall req, exists response,
    session self req = inr response /\ check_response self response = Ok body.

(** A response grid: one list of cells per source, each cell a mapping. *)
Definition grid_json (grid : list (list (gmap string pyval))) : pyval :=
  PyList ((fun row => PyList (PyDict <$> row)) <$> grid).

Definition cell_distance (cell : gmap string pyval) : pyval :=
  default_or (cell !! "distance") (PyInt 0).

Definition cell_time (cell : gmap string pyval) : pyval :=
  default_or (cell !! "time") (PyInt 0).

(** The properties of a feature: the mapping under ["properties"], the
    empty mapping when the key is absent. *)
Definition feature_props (feature : gmap string pyval)
    : option (gmap string pyval) :=
  match feature !! "properties" with
  | None => Some ∅
  | Some (PyDict props) => Some props
  | Some _ => None
  end.

(** A raw value that [RouteInfo] accepts for division by [k]: it is not
    [None] and the division returns. *)
Definition divides_by (v : pyval) (k : positive) : Prop :=
  v <> PyNone /\ is_ok (py_truediv_int v k) = true.

(** The ["rank"] entry of the properties is absent or a mapping. *)
Definition plain_rank (props : gmap string pyval) : Prop :=
  props !! "rank" = None \/ exists rank, props !! "rank" = Some (PyDict rank).


(** ** Sample calls *)

(** A session that answers every request with status 200 and the given
    decoded body, and a provider on top of it. *)
Definition answering (body : pyval) : Session :=
  fun _ => inr {| status_code := 200; text := ""; json := inr body |}.

Definition sample_provider (body : pyval) : Provider :=
  {| api_key := "key"; timeout := 10; session := answering body |}.

(** A provider whose session answers 404 with the text ["Not Found"]. *)
Definition missing_page : Response :=
  {| status_code := 404; text := "Not Found"; json := inl (ExcValueError "") |}.

Definition failing_provider : Provider :=
  {| api_key := "key"; timeout := 10; session := fun _ => inr missing_page |}.

Definition sf_point : GeoPoint :=
  {| latitude := PyInt 37; longitude := PyInt (-122) |}.

Definition san_francisco : pyobj := ObjGeoPoint sf_point.

Definition beyond_the_pole : pyobj :=
  ObjValue (PyDict {[ "latitude" := PyInt 91; "longitude" := PyInt 0 ]}).

(** [GeoPoint(latitude="x", longitude=0)]. *)
Definition unreadable_point : pyobj :=
  ObjGeoPoint {| latitude := PyStr "x"; longitude := PyInt 0 |}.

(** The route of 5000 metres and 300 seconds. *)
Definition test_route : RouteInfo :=
  {| distance_km := PFloat (float_div_int (Z_as_SF 5000) 1000);
     duration_minutes := PFloat (float_div_int (Z_as_SF 300) 60) |}.

(** A route of [-2^-11] km and [-2^-7] minutes: both products are exact,
    [-0.48828125] metres and [-0.46875] seconds. *)
Definition backward_route : RouteInfo :=
  {| distance_km := PFloat (S754_finite true (2 ^ 52) (-63));
     duration_minutes := PFloat (S754_finite true (2 ^ 52) (-59)) |}.

Definition no_features : gmap string pyval := ∅.

(** [{"features": [{"properties": {"time": 300}}]}]. *)
Definition timed_props : gmap string pyval := {[ "time" := PyInt 300 ]}.
Definition timed_feature : gmap string pyval :=
  {[ "properties" := PyDict timed_props ]}.
Definition timed_response : gmap string pyval :=
  {[ "features" := PyList [PyDict timed_feature] ]}.

(** [{"features": [{"properties": {"time": null}}]}]. *)
Definition null_time_props : gmap string pyval := {[ "time" := PyNone ]}.
Definition null_time_feature : gmap string pyval :=
  {[ "properties" := PyDict null_time_props ]}.
Definition null_time_response : gmap string pyval :=
  {[ "features" := PyList [PyDict null_time_feature] ]}.

(** [{"sources_to_targets": [[{"distance": 50000, "time": 1800}]]}]. *)
Definition one_cell : gmap string pyval :=
  {[ "distance" := PyInt 50000; "time" := PyInt 1800 ]}.
Definition one_cell_response : gmap string pyval :=
  {[ "sources_to_targets" := grid_json [[one_cell]] ]}.

(** [{"geometry": {"coordinates": [13, 52]}}], and a response holding it. *)
Definition berlin_geometry : gmap string pyval :=
  {[ "coordinates" := PyList [PyInt 13; PyInt 52] ]}.
Definition berlin_feature : gmap string pyval :=
  {[ "geometry" := PyDict berlin_geometry ]}.
Definition berlin_response : gmap string pyval :=
  {[ "features" := PyList [PyDict berlin_feature] ]}.

(** ** Serialized forms of the data model *)

(** [v is None]. *)
Definition is_none (v : pyval) : bool :=
  match v with
  | PyNone => true
  | _ => false
  end.

(** [asdict(self).items()] for an [Address]: the fields in declaration
    order. *)
Definition Address_items (a : Address) : list (string * pyval) :=
  [ ("street", street a); ("house_number", house_number a);
    ("city", city a); ("postcode", postcode a); ("country", country a);
    ("country_code", country_code a); ("state", state a);
    ("formatted_address", formatted_address a) ].

(** [Address.to_dict]: the items whose value is not [None]. *)
Definition Address_to_dict (a : Address) : gmap string pyval :=
  list_to_map (filter (fun kv => is_none kv.2 = false) (Address_items a)).

(** [if v: params[k] = v]. *)
Definition set_if_truthy (k : string) (v : pyval) (params : gmap string pyval)
    : gmap string pyval :=
  if py_truthy v then <[k := v]> params else params.

(** [Address.to_query_params]. *)
Definition Address_to_query_params (a : Address) : gmap string pyval :=
  set_if_truthy "country" (country a)
    (set_if_truthy "postcode" (postcode a)
       (set_if_truthy "city" (city a)
          (set_if_truthy "housenumber" (house_number a)
             (set_if_truthy "street" (street a) ∅)))).

(** ** More notions used by the statements *)

(** The exceptions of the SDK that report a remote failure. *)
Definition remote_error (e : exn) : Prop :=
  match e with
  | AuthenticationError _ | RateLimitError _ | APIError _ => True
  | _ => False
  end.

(** The built-in exceptions, raised by operations on ill-typed values. *)
Definition builtin_error (e : exn) : Prop :=
  match e with
  | TypeError _ | AttributeError _ | KeyError _ | IndexError _
  | ValueError _ | OverflowError _ => True
  | _ => False
  end.

Definition is_validation_error (e : exn) : Prop :=
  match e with
  | ValidationError _ => True
  | _ => False
  end.

(** A request as the adapter issues them: a GET below [BASE_URL] without
    body or headers, with the provider's timeout and its key under
    ["apiKey"]. *)
Definition adapter_request (self : Provider) (req : Request) : Prop :=
  req_method req = GET /\
  String.prefix BASE_URL (req_url req) = true /\
  req_json req = None /\
  req_headers req = None /\
  req_timeout req = timeout self /\
  exists params,
    req_params req = Some params /\
    params !! "apiKey" = Some (PyStr (api_key self)).

(** The name under which element [idx] of a list is validated. *)
Definition indexed_name (name : string) (idx : nat) : string :=
  name +:+ "[" +:+ pretty idx +:+ "]".

(** A location passes validation (under any name). *)
Definition valid_location (o : pyobj) : Prop :=
  _validate_location o "location" = Ok tt.

(** The coordinate list of a feature holds at least two entries. *)
Definition has_pair (feature : pyval) : bool :=
  match feature_coords feature with
  | Ok (PyList (_ :: _ :: _)) => true
  | _ => false
  end.

(** A feature as the vendor sends them: a mapping whose properties and rank
    are mappings or absent and whose coordinates, if any, are a list. *)
Definition plain_feature (feature : pyval) : Prop :=
  exists fd props coords,
    feature = PyDict fd /\
    feature_props fd = Some props /\
    plain_rank props /\
    feature_coords feature = Ok (PyList coords).

(** The address that the properties of a feature describe. *)
Definition props_address (props : gmap string pyval) : Address :=
  {| street := default_or (props !! "street") PyNone;
     house_number := default_or (props !! "housenumber") PyNone;
     city := default_or (props !! "city") PyNone;
     postcode := default_or (props !! "postcode") PyNone;
     country := default_or (props !! "country") PyNone;
     country_code := default_or (props !! "country_code") PyNone;
     state := default_or (props !! "state") PyNone;
     formatted_address := default_or (props !! "formatted") PyNone |}.

(** A computation raises only exceptions that satisfy [P]. *)
Definition raises_only {A} (P : exn -> Prop) (r : result A) : Prop :=
  match r with
  | Ok _ => True
  | Raise e => P e
  end.

(** What a call of an operation does to the log: it fails without issuing
    a request, or issues exactly one request, after which it returns or
    raises a remote or a built-in error. *)
Definition operation_outcome {A} (log : list Request)
    (out : result A * list Request) : Prop :=
  (snd out = log /\ is_ok (fst out) = false) \/
  (exists req,
     snd out = (log ++ [req])%list /\
     raises_only (fun e => remote_error e \/ builtin_error e) (fst out)).

(** The address of a feature: the one its properties describe. *)
Definition feature_address (feature : pyval) : Address :=
  match feature with
  | PyDict fd => props_address (default_or (feature_props fd) ∅)
  | _ => props_address ∅
  end.

(** A feature that is a mapping whose properties are a mapping or absent. *)
Definition has_props (feature : pyval) : Prop :=
  exists fd props, feature = PyDict fd /\ feature_props fd = Some props.

(** The field names of [Address.to_dict] with the wire names of the
    properties they are read from. *)
Definition wire_names : list (string * string) :=
  [ ("street", "street"); ("house_number", "housenumber"); ("city", "city");
    ("postcode", "postcode"); ("country", "country");
    ("country_code", "country_code"); ("state", "state");
    ("formatted_address", "formatted") ].

(** The keys that [Address.to_query_params] can set. *)
Definition query_param_names : list string :=
  [ "street"; "housenumber"; "city"; "postcode"; "country" ].

(** ** More sample calls *)

(** A provider whose session times out, and one whose session answers 200
    with a body that does not decode. *)
Definition timing_out_provider : Provider :=
  {| api_key := "key"; timeout := 10;
     session := fun _ => inl (ExcTimeout "timed out") |}.

Definition garbled_page : Response :=
  {| status_code := 200; text := "<html>";
     json := inl (ExcValueError "Expecting value") |}.

Definition garbled_provider : Provider :=
  {| api_key := "key"; timeout := 10; session := fun _ => inr garbled_page |}.

(** The mapping form of [sf_point]. *)
Definition sf_mapping : gmap string pyval := GeoPoint_to_dict sf_point.

(** [{"features": [{"properties": {"distance": 5000, "time": 300}}, {}]}]. *)
Definition measured_props : gmap string pyval :=
  {[ "distance" := PyInt 5000; "time" := PyInt 300 ]}.
Definition measured_feature : gmap string pyval :=
  {[ "properties" := PyDict measured_props ]}.
Definition measured_response : gmap string pyval :=
  {[ "features" := PyList [PyDict measured_feature; PyDict ∅] ]}.

(** [{"features": [{"geometry": {"coordinates": [13, 52]}}, {}]}]: the
    second feature has no coordinates. *)
Definition mixed_response : gmap string pyval :=
  {[ "features" := PyList [PyDict berlin_feature; PyDict ∅] ]}.

(** [{"city": "Berlin", "housenumber": "1", "state": null}]. *)
Definition berlin_props : gmap string pyval :=
  {[ "city" := PyStr "Berlin"; "housenumber" := PyStr "1"; "state" := PyNone ]}.

Definition berlin_address : Address :=
  {| street := PyNone; house_number := PyStr "1"; city := PyStr "Berlin";
     postcode := PyStr ""; country := PyNone; country_code := PyStr "de";
     state := PyNone; formatted_address := PyNone |}.

(** ** Numbers: truncation, floor and exact comparison *)

Lemma pow2_pos (k : Z) : 0 < 2 ^ k \/ k < 0.
Proof. destruct (Z.le_gt_cases 0 k); [left; apply Z.pow_pos_nonneg; lia | right; lia]. Qed.

Lemma Zpos_to_pos_pow2 (e : Z) : e < 0 -> Zpos (Z.to_pos (2 ^ (- e))) = 2 ^ (- e).
Proof. intros He. apply Z2Pos.id. apply Z.pow_pos_nonneg; lia. Qed.

(** [int(f)] is the value of [f] truncated toward zero. *)
Lemma int_of_float_trunc (f : spec_float) (q : Q) :
  SF2Q f = Some q -> int_of_float f = Ok (Qtrunc q).
Proof.
  destruct f as [s|s| |s m e]; simpl; try discriminate.
  - intros [= <-]. reflexivity.
  - destruct (0 <=? e) eqn:He; intros [= <-]; unfold Qtrunc; simpl.
    + now rewrite Z.quot_1_r.
    + apply Z.leb_gt in He. now rewrite Zpos_to_pos_pow2.
Qed.

Lemma int_of_float_raises (f : spec_float) :
  SF2Q f = None -> is_ok (int_of_float f) = false.
Proof.
  destruct f as [s|s| |s m e]; simpl; try discriminate; try reflexivity.
  destruct (0 <=? e); discriminate.
Qed.

(** Truncation and floor agree on the non-negative rationals. *)
Lemma Qtrunc_floor_nonneg (q : Q) : (0 <= q)%Q -> Qtrunc q = Qfloor q.
Proof.
  destruct q as [n d]. unfold Qle, Qtrunc, Qfloor. simpl. intros Hn.
  apply Z.quot_div_nonneg; lia.
Qed.

(** Truncation is the ceiling on the non-positive rationals. *)
Lemma Qtrunc_ceiling_nonpos (q : Q) : (q <= 0)%Q -> Qtrunc q = Qceiling q.
Proof.
  destruct q as [n d]. unfold Qle, Qtrunc, Qceiling, Qfloor. simpl. intros Hn.
  rewrite <- (Z.opp_involutive n) at 1. rewrite Z.quot_opp_l by lia.
  f_equal. apply Z.quot_div_nonneg; lia.
Qed.

(** The exact comparison of a finite float with an integer is the
    comparison of its value. *)
Lemma float_cmp_int_value (f : spec_float) (c : Z) (q : Q) :
  SF2Q f = Some q -> float_cmp_int f c = Some (q ?= inject_Z c)%Q.
Proof.
  destruct f as [s|s| |s m e]; cbn [SF2Q float_cmp_int]; try discriminate.
  - intros [= <-]. unfold Qcompare, inject_Z. cbn [Qnum Qden].
    now rewrite !Z.mul_1_r.
  - destruct (0 <=? e) eqn:He; intros [= <-];
      unfold Qcompare, inject_Z; cbn [Qnum Qden].
    + now rewrite !Z.mul_1_r.
    + apply Z.leb_gt in He. rewrite Zpos_to_pos_pow2 by lia.
      now rewrite !Z.mul_1_r.
Qed.

Lemma py_le_int_val_value (c : Z) (v : pyval) (q : Q) :
  val_value v = Some q -> py_le_int_val c v = Ok (Qle_bool (inject_Z c) q).
Proof.
  destruct v as [ |b|z|f|s|l|d]; simpl; try discriminate.
  - intros [= <-]. unfold Qle_bool, inject_Z. cbn [Qnum Qden].
    now rewrite !Z.mul_1_r.
  - intros [= <-]. unfold Qle_bool, inject_Z. cbn [Qnum Qden].
    now rewrite !Z.mul_1_r.
  - intros Hq. rewrite (float_cmp_int_value _ _ _ Hq). f_equal. symmetry.
    destruct (q ?= inject_Z c)%Q eqn:Hc.
    + apply Qeq_alt in Hc. apply Qle_bool_iff. rewrite Hc. apply Qle_refl.
    + apply Qlt_alt in Hc. destruct (Qle_bool (inject_Z c) q) eqn:Hle; [|reflexivity].
      apply Qle_bool_iff in Hle. exfalso. exact (Qlt_not_le _ _ Hc Hle).
    + apply Qgt_alt in Hc. apply Qle_bool_iff. now apply Qlt_le_weak.
Qed.

Lemma py_le_val_int_value (v : pyval) (c : Z) (q : Q) :
  val_value v = Some q -> py_le_val_int v c = Ok (Qle_bool q (inject_Z c)).
Proof.
  destruct v as [ |b|z|f|s|l|d]; simpl; try discriminate.
  - intros [= <-]. unfold Qle_bool, inject_Z. cbn [Qnum Qden].
    now rewrite !Z.mul_1_r.
  - intros [= <-]. unfold Qle_bool, inject_Z. cbn [Qnum Qden].
    now rewrite !Z.mul_1_r.
  - intros Hq. rewrite (float_cmp_int_value _ _ _ Hq). reflexivity.
Qed.

(** [lo <= v <= hi] on a finite number decides the interval. *)
Lemma py_between_value (lo hi : Z) (v : pyval) (q : Q) :
  val_value v = Some q ->
  py_between lo v hi
  = Ok (Qle_bool (inject_Z lo) q && Qle_bool q (inject_Z hi)).
Proof.
  intros Hq. unfold py_between.
  rewrite (py_le_int_val_value _ _ _ Hq). cbn [rbind].
  destruct (Qle_bool (inject_Z lo) q); [|reflexivity].
  now rewrite (py_le_val_int_value _ _ _ Hq).
Qed.

Lemma py_between_inside (lo hi : Z) (v : pyval) (q : Q) :
  val_value v = Some q ->
  (inject_Z lo <= q)%Q -> (q <= inject_Z hi)%Q ->
  py_between lo v hi = Ok true.
Proof.
  intros Hq H1 H2. rewrite (py_between_value _ _ _ _ Hq).
  apply Qle_bool_iff in H1, H2. now rewrite H1, H2.
Qed.

Lemma py_between_outside (lo hi : Z) (v : pyval) (q : Q) :
  val_value v = Some q ->
  (q < inject_Z lo)%Q \/ (inject_Z hi < q)%Q ->
  py_between lo v hi = Ok false.
Proof.
  intros Hq H. rewrite (py_between_value _ _ _ _ Hq). f_equal.
  apply andb_false_iff.
  destruct H as [H|H]; [left|right];
    (destruct (Qle_bool _ _) eqn:Hle; [|reflexivity]);
    apply Qle_bool_iff in Hle; exfalso; exact (Qlt_not_le _ _ H Hle).
Qed.

(** [|q| > c] means that [q] lies outside [[-c, c]]. *)
Lemma Qabs_gt_outside (q : Q) (c : Z) :
  (inject_Z c < Qabs q)%Q -> (q < inject_Z (- c))%Q \/ (inject_Z c < q)%Q.
Proof.
  intros H.
  destruct (Qlt_le_dec q (inject_Z (- c))) as [Hlo|Hlo]; [now left|].
  destruct (Qlt_le_dec (inject_Z c) q) as [Hhi|Hhi]; [now right|].
  exfalso. apply (Qlt_not_le _ _ H). apply Qabs_Qle_condition. split.
  - now rewrite <- inject_Z_opp.
  - exact Hhi.
Qed.

Lemma py_between_number (lo hi : Z) (v : pyval) :
  is_number v -> exists b, py_between lo v hi = Ok b.
Proof.
  unfold py_between.
  destruct v as [ |b|z|f|s|l|d]; cbn [is_number]; try contradiction; intros _;
    cbn [py_le_int_val rbind];
    match goal with
    | |- context [if ?c then _ else _] => destruct c
    end; eexists; reflexivity.
Qed.


(** ** RouteInfo *)

Lemma float_of_int_1000 :
  float_of_int 1000 = Ok (binary_normalize 53 1024 1000 0 false).
Proof. reflexivity. Qed.

Lemma float_of_int_60 :
  float_of_int 60 = Ok (binary_normalize 53 1024 60 0 false).
Proof. reflexivity. Qed.

Lemma py_int_trunc (p : pynum) (q : Q) :
  num_value p = Some q -> py_int p = Ok (Qtrunc q).
Proof.
  destruct p as [z|f]; simpl.
  - intros [= <-]. unfold Qtrunc. simpl. now rewrite Z.quot_1_r.
  - apply int_of_float_trunc.
Qed.

Lemma py_int_raises (p : pynum) :
  num_value p = None -> is_ok (py_int p) = false.
Proof.
  destruct p as [z|f]; simpl; [discriminate|]. apply int_of_float_raises.
Qed.

Lemma int_of_product (x : pynum) (k : Z) :
  is_ok (float_of_int k) = true ->
  match num_mul_int x k with
  | Ok p =>
      (forall q, num_value p = Some q ->
         (p' <- num_mul_int x k ;; py_int p') = Ok (Qtrunc q)) /\
      (num_value p = None -> is_ok (p' <- num_mul_int x k ;; py_int p') = false)
  | Raise _ => False
  end.
Proof.
  intros Hk. destruct x as [z|f]; cbn [num_mul_int].
  - cbn [rbind]. split; [apply py_int_trunc | apply py_int_raises].
  - destruct (float_of_int k) as [fk|e]; [|discriminate]. cbn [rbind].
    split; [apply py_int_trunc | apply py_int_raises].
Qed.

(** C2 (amended).  The [distance] accessor is the computed product
    [distance_km * 1000] truncated toward zero, and the [duration] accessor
    is [duration_minutes * 60] truncated toward zero, whenever the product
    is finite; this is the integer floor when the product is not negative.
    When the product is NaN or infinite the accessor raises. *)
Theorem route_info_accessors_truncate (r : RouteInfo) :
  (forall q, RouteInfo_meters_value r = Some q ->
     RouteInfo_distance r = Ok (Qtrunc q) /\
     ((0 <= q)%Q -> RouteInfo_distance r = Ok (Qfloor q))) /\
  (forall q, RouteInfo_seconds_value r = Some q ->
     RouteInfo_duration r = Ok (Qtrunc q) /\
     ((0 <= q)%Q -> RouteInfo_duration r = Ok (Qfloor q))) /\
  (RouteInfo_meters_value r = None -> is_ok (RouteInfo_distance r) = false) /\
  (RouteInfo_seconds_value r = None -> is_ok (RouteInfo_duration r) = false).
Proof.
  unfold RouteInfo_meters_value, RouteInfo_seconds_value,
    RouteInfo_distance, RouteInfo_duration.
  pose proof (int_of_product (distance_km r) 1000 eq_refl) as Hd.
  pose proof (int_of_product (duration_minutes r) 60 eq_refl) as Ht.
  destruct (num_mul_int (distance_km r) 1000) as [pd|]; [|contradiction].
  destruct (num_mul_int (duration_minutes r) 60) as [pt|]; [|contradiction].
  destruct Hd as [Hd1 Hd2], Ht as [Ht1 Ht2].
  repeat split; auto.
  - intros Hq. rewrite <- (Qtrunc_floor_nonneg q Hq). auto.
  - intros Hq. rewrite <- (Qtrunc_floor_nonneg q Hq). auto.
Qed.

Lemma route_info_accessors_truncate_witness :
  RouteInfo_distance test_route = Ok 5000 /\
  RouteInfo_duration test_route = Ok 300.
Proof.
  destruct (route_info_accessors_truncate test_route) as (Hd & Ht & _).
  split.
  - exact (proj1 (Hd (5497558138880000 # 1099511627776)%Q eq_refl)).
  - exact (proj1 (Ht (5277655813324800 # 17592186044416)%Q eq_refl)).
Defined.

(** C2 (as stated) fails: on [backward_route] the floor of either product
    is [-1], and both accessors return [0]. *)
Lemma route_info_accessors_not_floor :
  (exists q, RouteInfo_meters_value backward_route = Some q /\
             Qfloor q = -1 /\ RouteInfo_distance backward_route = Ok 0) /\
  (exists q, RouteInfo_seconds_value backward_route = Some q /\
             Qfloor q = -1 /\ RouteInfo_duration backward_route = Ok 0).
Proof.
  split; eexists; (split; [vm_compute; reflexivity|]);
    split; vm_compute; reflexivity.
Qed.


Lemma py_truediv_float (f : spec_float) (k : positive) :
  is_ok (float_of_int (Zpos k)) = true ->
  py_truediv_int (PyFloat f) k = Ok (float_div_int f k).
Proof.
  unfold py_truediv_int, float_div_int, float_of_int.
  destruct (binary_normalize 53 1024 (Z.pos k) 0 false); try discriminate;
    reflexivity.
Qed.

(** C6 (amended).  [RouteInfo] needs at least one of each pair.  With
    neither [distance] nor [distance_km] construction raises [TypeError]
    "Either distance or distance_km must be provided".  With neither
    [duration] nor [duration_minutes] it fails as well, with [TypeError]
    "Either duration or duration_minutes must be provided" whenever the
    distance pair is accepted.  It succeeds when each pair is accepted,
    that is, when the keyword value is supplied or the raw value is a
    number whose division by 1000, resp. 60, returns, as for every float;
    so in particular with exactly one of each pair.  A keyword value
    [distance_km] or [duration_minutes] is stored as it is and takes
    precedence over the raw value, which is otherwise stored divided. *)
Theorem route_info_init_pairs :
  (forall duration mins,
     RouteInfo_init PyNone duration None mins
     = Raise (TypeError "Either distance or distance_km must be provided")) /\
  (forall distance km,
     is_ok (RouteInfo_init distance PyNone km None) = false /\
     (km <> None \/ divides_by distance 1000 ->
      RouteInfo_init distance PyNone km None
      = Raise (TypeError "Either duration or duration_minutes must be provided"))) /\
  (forall (distance duration : pyval) (km mins : option pynum),
     km <> None \/ divides_by distance 1000 ->
     mins <> None \/ divides_by duration 60 ->
     exists r,
       RouteInfo_init distance duration km mins = Ok r /\
       (forall x, km = Some x -> distance_km r = x) /\
       (forall q, km = None -> py_truediv_int distance 1000 = Ok q ->
          distance_km r = PFloat q) /\
       (forall x, mins = Some x -> duration_minutes r = x) /\
       (forall q, mins = None -> py_truediv_int duration 60 = Ok q ->
          duration_minutes r = PFloat q)) /\
  (forall f, divides_by (PyFloat f) 1000 /\ divides_by (PyFloat f) 60).
Proof.
  assert (Hhalf : forall (v : pyval) (k : positive) (kw : option pynum) (msg : string),
             kw <> None \/ divides_by v k ->
             exists x,
               match kw with
               | Some y => Ok y
               | None =>
                   match v with
                   | PyNone => Raise (TypeError msg)
                   | d => q <- py_truediv_int d k ;; Ok (PFloat q)
                   end
               end = Ok x /\
               (forall y, kw = Some y -> x = y) /\
               (forall q, kw = None -> py_truediv_int v k = Ok q -> x = PFloat q)).
  { intros v k kw msg Hacc. destruct kw as [y|].
    - exists y. split; [reflexivity|]. split; [now intros ? [= ->] | discriminate].
    - destruct Hacc as [Hacc | [Hv Hok]]; [congruence|].
      destruct (py_truediv_int v k) as [q|] eqn:Hq; [|discriminate].
      exists (PFloat q). split.
      + destruct v; try congruence; reflexivity.
      + split; [discriminate | now intros ? _ [= ->]]. }
  split; [reflexivity|]. split; [|split].
  - intros distance km. split.
    + unfold RouteInfo_init. destruct km as [x|]; cbn [rbind]; [reflexivity|].
      destruct distance; try reflexivity;
        (destruct (py_truediv_int _ 1000); reflexivity).
    + intros Hacc. unfold RouteInfo_init.
      destruct (Hhalf distance 1000%positive km
                  "Either distance or distance_km must be provided" Hacc)
        as (x & -> & _).
      reflexivity.
  - intros distance duration km mins Hd Ht. unfold RouteInfo_init.
    destruct (Hhalf distance 1000%positive km
                "Either distance or distance_km must be provided" Hd)
      as (x & -> & Hx1 & Hx2).
    destruct (Hhalf duration 60%positive mins
                "Either duration or duration_minutes must be provided" Ht)
      as (y & -> & Hy1 & Hy2).
    cbn [rbind]. eexists. split; [reflexivity|].
    cbn [distance_km duration_minutes]. auto.
  - intros f. split; (split; [discriminate|]);
      now rewrite py_truediv_float.
Qed.

(** The route of the source's own tests, [RouteInfo(distance=5000,
    duration=300)], built from integers. *)
Lemma route_info_init_pairs_witness :
  exists r,
    RouteInfo_init (PyInt 5000) (PyInt 300) None None = Ok r /\
    distance_km r = PFloat (float_div_int (Z_as_SF 5000) 1000) /\
    duration_minutes r = PFloat (float_div_int (Z_as_SF 300) 60).
Proof.
  destruct route_info_init_pairs as (_ & _ & H & _).
  destruct (H (PyInt 5000) (PyInt 300) None None)
    as (r & Hr & _ & Hkm & _ & Hmin).
  - right. split; [discriminate | vm_compute; reflexivity].
  - right. split; [discriminate | vm_compute; reflexivity].
  - exists r. split; [exact Hr|]. split.
    + apply Hkm; [reflexivity | vm_compute; reflexivity].
    + apply Hmin; [reflexivity | vm_compute; reflexivity].
Defined.

(** C6 (as stated) fails: construction succeeds with both members of each
    pair supplied, so exactly one is not required. *)
Lemma route_info_init_accepts_both :
  RouteInfo_init (PyFloat (Z_as_SF 5000)) (PyFloat (Z_as_SF 300))
    (Some (PInt 7)) (Some (PInt 9))
  = Ok {| distance_km := PInt 7; duration_minutes := PInt 9 |}.
Proof. reflexivity. Qed.

(** ** Point validation *)

Lemma validate_location_coords (o : pyobj) (name : string) (lat lon : pyval) :
  location_coords o = Some (lat, lon) ->
  _validate_location o name
  = (lat_ok <- py_between (-90) lat 90 ;;
     if negb lat_ok
     then Raise (ValidationError (name +:+ " latitude must be between -90 and 90"))
     else
       lon_ok <- py_between (-180) lon 180 ;;
       if negb lon_ok
       then Raise (ValidationError (name +:+ " longitude must be between -180 and 180"))
       else Ok tt).
Proof.
  destruct o as [p|v]; cbn [location_coords].
  - intros [= <- <-]. reflexivity.
  - destruct v as [ |b|z|f|s|l|d]; try discriminate.
    destruct (d !! "latitude") as [a|] eqn:Ha; [|discriminate].
    destruct (d !! "longitude") as [b|] eqn:Hb; [|discriminate].
    intros [= <- <-]. unfold _validate_location.
    cbn [py_getitem]. rewrite Ha, Hb. reflexivity.
Qed.

Lemma validate_location_no_coords (o : pyobj) (name : string) :
  location_coords o = None ->
  exists msg, _validate_location o name = Raise (ValidationError msg).
Proof.
  destruct o as [p|v]; cbn [location_coords]; [discriminate|].
  destruct v as [ |b|z|f|s|l|d]; try (intros _; eexists; reflexivity).
  unfold _validate_location.
  destruct (d !! "latitude") as [a|]; [|intros _; eexists; reflexivity].
  destruct (d !! "longitude") as [b|]; [discriminate|].
  intros _; eexists; reflexivity.
Qed.

Lemma py_between_not_finite (lo hi : Z) (v : pyval) :
  is_number v -> val_value v = None -> py_between lo v hi = Ok false.
Proof.
  destruct v as [ |b|z|f|s|l|d]; cbn [is_number val_value];
    try contradiction; try discriminate.
  intros _. unfold py_between.
  destruct f as [s|s| |s m e]; cbn [SF2Q]; try discriminate.
  - destruct s; reflexivity.
  - reflexivity.
  - destruct (0 <=? e) eqn:He; cbn [SF2Q]; rewrite ?He; discriminate.
Qed.

(** C7.  Point validation reads the coordinates of a [GeoPoint] or of a
    mapping with both keys and rejects every other value with
    [ValidationError].  For a latitude [L] and longitude [G] (the values of
    the two coordinates): if [|L| > 90] or [|G| > 180] it raises
    [ValidationError]; if [L] is in [[-90, 90]] and [G] in [[-180, 180]] it
    succeeds.  A coordinate that is an infinity or NaN is rejected with
    [ValidationError] too. *)
Theorem validate_location_range (o : pyobj) (name : string) :
  (location_coords o = None ->
     exists msg, _validate_location o name = Raise (ValidationError msg)) /\
  (forall lat lon L G,
     location_coords o = Some (lat, lon) ->
     val_value lat = Some L -> val_value lon = Some G ->
     ((90 < Qabs L)%Q \/ (180 < Qabs G)%Q ->
        exists msg, _validate_location o name = Raise (ValidationError msg)) /\
     ((-90 <= L)%Q /\ (L <= 90)%Q /\ (-180 <= G)%Q /\ (G <= 180)%Q ->
        _validate_location o name = Ok tt)) /\
  (forall lat lon,
     location_coords o = Some (lat, lon) ->
     is_number lat -> is_number lon ->
     val_value lat = None \/ val_value lon = None ->
     exists msg, _validate_location o name = Raise (ValidationError msg)).
Proof.
  split; [apply validate_location_no_coords|].
  split; cycle 1.
  { intros lat lon Hc Hlat Hlon Hinf.
    rewrite (validate_location_coords _ _ _ _ Hc).
    destruct (py_between_number (-90) 90 lat Hlat) as [a Ha].
    destruct Hinf as [Hinf|Hinf].
    - rewrite (py_between_not_finite (-90) 90 lat Hlat Hinf).
      eexists; reflexivity.
    - rewrite Ha. destruct a; cbn [rbind negb]; [|eexists; reflexivity].
      rewrite (py_between_not_finite (-180) 180 lon Hlon Hinf).
      eexists; reflexivity. }
  intros lat lon L G Hc HL HG.
  rewrite (validate_location_coords _ _ _ _ Hc). split.
  - intros Hout.
    destruct (Qlt_le_dec 90 (Qabs L)) as [HoutL|HinL].
    + rewrite (py_between_outside (-90) 90 lat L HL (Qabs_gt_outside L 90 HoutL)).
      eexists; reflexivity.
    + apply Qabs_Qle_condition in HinL. destruct HinL as [H1 H2].
      rewrite (py_between_inside (-90) 90 lat L HL H1 H2). cbn [rbind negb].
      destruct Hout as [Hout|Hout]; [exfalso; eapply Qlt_not_le; [exact Hout|]|].
      * apply Qabs_Qle_condition. now split.
      * rewrite (py_between_outside (-180) 180 lon G HG (Qabs_gt_outside G 180 Hout)).
        eexists; reflexivity.
  - intros (H1 & H2 & H3 & H4).
    rewrite (py_between_inside (-90) 90 lat L HL H1 H2). cbn [rbind negb].
    rewrite (py_between_inside (-180) 180 lon G HG H3 H4). reflexivity.
Qed.

Lemma validate_location_range_witness :
  _validate_location san_francisco "location" = Ok tt /\
  exists msg,
    _validate_location beyond_the_pole "location" = Raise (ValidationError msg).
Proof.
  split.
  - apply (proj1 (proj2 (validate_location_range san_francisco "location"))
             (PyInt 37) (PyInt (-122)) (inject_Z 37) (inject_Z (-122))
             eq_refl eq_refl eq_refl).
    repeat split; discriminate.
  - apply (proj1 (proj2 (validate_location_range beyond_the_pole "location"))
             (PyInt 91) (PyInt 0) (inject_Z 91) (inject_Z 0)
             ltac:(vm_compute; reflexivity) eq_refl eq_refl).
    left. reflexivity.
Defined.


(** On a location with numeric coordinates validation returns or raises
    [ValidationError], nothing else. *)
Lemma validate_location_numeric (o : pyobj) (name : string) :
  numeric_location o ->
  _validate_location o name = Ok tt \/
  exists msg, _validate_location o name = Raise (ValidationError msg).
Proof.
  unfold numeric_location.
  destruct (location_coords o) as [[lat lon]|] eqn:Hc.
  - intros [Hlat Hlon]. rewrite (validate_location_coords _ _ _ _ Hc).
    destruct (py_between_number (-90) 90 lat Hlat) as [a ->].
    destruct (py_between_number (-180) 180 lon Hlon) as [b ->].
    destruct a, b; cbn [rbind negb]; eauto.
  - intros _. right. now apply validate_location_no_coords.
Qed.

Lemma validate_from_numeric (name : string) (locations : list pyobj) :
  Forall numeric_location locations ->
  forall idx,
    validate_from name idx locations = Ok tt \/
    exists msg, validate_from name idx locations = Raise (ValidationError msg).
Proof.
  induction 1 as [|o l Ho _ IH]; intros idx; cbn [validate_from]; [now left|].
  destruct (validate_location_numeric o (name +:+ "[" +:+ pretty idx +:+ "]") Ho)
    as [-> | [msg ->]]; [apply IH | right; eauto].
Qed.

Lemma validate_locations_list_numeric (locations : list pyobj) (name : string) :
  Forall numeric_location locations ->
  _validate_locations_list locations name = Ok tt \/
  exists msg, _validate_locations_list locations name = Raise (ValidationError msg).
Proof.
  intros H. destruct locations as [|o l]; cbn [_validate_locations_list].
  - right; eauto.
  - now apply validate_from_numeric.
Qed.

(** ** Well-formed features *)

Lemma plain_props_value (fd props : gmap string pyval) :
  feature_props fd = Some props ->
  default_or (fd !! "properties") (PyDict ∅) = PyDict props.
Proof.
  unfold feature_props.
  destruct (fd !! "properties") as [v|]; cbn [default_or].
  - destruct v; try discriminate. now intros [= ->].
  - now intros [= <-].
Qed.

Lemma address_of_props_dict (props : gmap string pyval) :
  address_of_props (PyDict props) = Ok (props_address props).
Proof. reflexivity. Qed.

Lemma reverse_feature_address (feature : pyval) :
  has_props feature -> reverse_feature feature = Ok (feature_address feature).
Proof.
  intros (fd & props & -> & Hp). unfold reverse_feature, feature_address.
  cbn [py_get rbind]. rewrite (plain_props_value fd props Hp), Hp.
  reflexivity.
Qed.

Lemma for_each_total {A B} (body : A -> result B) (f : A -> B) (l : list A) :
  Forall (fun x => body x = Ok (f x)) l -> for_each body l = Ok (f <$> l).
Proof.
  induction 1 as [|x l Hx _ IH]; [reflexivity|].
  cbn [for_each]. rewrite Hx, IH. reflexivity.
Qed.

Lemma geocode_feature_plain (feature : pyval) :
  plain_feature feature ->
  exists res,
    geocode_feature feature = Ok res /\
    (if has_pair feature
     then exists r, res = Some r /\ raw_data r = feature /\
                    address r = feature_address feature
     else res = None).
Proof.
  intros (fd & props & coords & -> & Hp & Hrank & Hc).
  unfold has_pair. rewrite Hc.
  unfold geocode_feature. rewrite Hc. cbn [py_get rbind].
  rewrite (plain_props_value fd props Hp).
  destruct coords as [|x [|y rest]].
  - eexists. split; reflexivity.
  - eexists. split; reflexivity.
  - unfold usable_coords. cbn [py_truthy py_len length rbind].
    replace (2 <=? Z.of_nat (S (S (length rest)))) with true
      by (symmetry; apply Z.leb_le; lia).
    cbn [point_of_coords py_index lookup list_lookup rbind].
    rewrite address_of_props_dict. cbn [rbind py_get].
    destruct Hrank as [-> | [rank ->]]; cbn [default_or py_get rbind];
      eexists; (split; [reflexivity|]); eexists; (split; [reflexivity|]);
      cbn [raw_data address feature_address]; rewrite Hp; now split.
Qed.

Lemma autocomplete_feature_plain (feature : pyval) :
  plain_feature feature ->
  exists res,
    autocomplete_feature feature = Ok res /\
    (if has_pair feature
     then exists r, res = Some r /\ AutocompleteResult.raw_data r = feature /\
                    AutocompleteResult.address r = feature_address feature
     else res = None).
Proof.
  intros (fd & props & coords & -> & Hp & Hrank & Hc).
  unfold has_pair. rewrite Hc.
  unfold autocomplete_feature. rewrite Hc. cbn [py_get rbind].
  rewrite (plain_props_value fd props Hp).
  destruct coords as [|x [|y rest]].
  - eexists. split; reflexivity.
  - eexists. split; reflexivity.
  - unfold usable_coords. cbn [py_truthy py_len length rbind].
    replace (2 <=? Z.of_nat (S (S (length rest)))) with true
      by (symmetry; apply Z.leb_le; lia).
    cbn [point_of_coords py_index lookup list_lookup rbind].
    rewrite address_of_props_dict. cbn [rbind].
    eexists; (split; [reflexivity|]); eexists; (split; [reflexivity|]).
    cbn [AutocompleteResult.raw_data AutocompleteResult.address feature_address].
    rewrite Hp. now split.
Qed.

(** The results of a loop whose body keeps or skips each feature. *)
Lemma for_each_keeps_order {R} (body : pyval -> result (option R))
    (raw : R -> pyval) (addr : R -> Address) (features : list pyval) :
  Forall (fun feature =>
            exists res,
              body feature = Ok res /\
              (if has_pair feature
               then exists r, res = Some r /\ raw r = feature /\
                              addr r = feature_address feature
               else res = None)) features ->
  exists found,
    for_each body features = Ok found /\
    raw <$> omap id found = List.filter has_pair features /\
    Forall (fun r => addr r = feature_address (raw r)) (omap id found).
Proof.
  induction 1 as [|f fs (res & Hres & Hkeep) _ (found & Hfound & Hraw & Haddr)].
  - exists []. repeat split; constructor.
  - exists (res :: found). cbn [for_each]. rewrite Hres, Hfound. cbn [rbind].
    split; [reflexivity|]. cbn [List.filter].
    destruct (has_pair f).
    + destruct Hkeep as (r & -> & Hr & Ha). cbn. split.
      * now rewrite Hr, <- Hraw.
      * constructor; [now rewrite Hr | exact Haddr].
    + subst res. cbn. now split.
Qed.

Section Properties.

Variable str_upper : string -> string.
Variable str_strip : string -> string.
Variable py_format : pyval -> string.

(** ["GET".upper()] is ["GET"]. *)
Hypothesis upper_GET : str_upper "GET" = "GET".

(** *** The cap on the distance matrix *)

(** C3 (amended).  A [distance_matrix] call with more than 10 sources or
    more than 10 targets raises without issuing a request, whatever the
    points are; the exception is [ValidationError] whenever the
    coordinates of the points are numbers, in range or not. *)
Theorem distance_matrix_cap (self : Provider) (srcs tgts : list pyobj)
    (mode : TravelMode) (units : DistanceUnit) (log : list Request) :
  (10 < length srcs)%nat \/ (10 < length tgts)%nat ->
  (exists e,
     distance_matrix str_upper py_format self srcs tgts mode units log
     = (Raise e, log)) /\
  (Forall numeric_location srcs -> Forall numeric_location tgts ->
   exists msg,
     distance_matrix str_upper py_format self srcs tgts mode units log
     = (Raise (ValidationError msg), log)).
Proof.
  intros Hlen.
  assert (Hcap : ((10 <? Z.of_nat (length srcs)) || (10 <? Z.of_nat (length tgts)))
                 = true).
  { apply orb_true_iff. destruct Hlen; [left|right]; apply Z.ltb_lt; lia. }
  unfold distance_matrix, mbind, lift, mraise. split.
  - destruct (_validate_locations_list srcs "sources") as [[]|e]; [|eauto].
    destruct (_validate_locations_list tgts "targets") as [[]|e]; [|eauto].
    rewrite Hcap. eauto.
  - intros Hs Ht.
    destruct (validate_locations_list_numeric srcs "sources" Hs)
      as [-> | [msg ->]]; [|eauto].
    destruct (validate_locations_list_numeric tgts "targets" Ht)
      as [-> | [msg ->]]; [|eauto].
    rewrite Hcap. eauto.
Qed.

(** *** The request helper *)

(** C4.  When [_make_request] issues a request (the method is GET or
    POST) and the session answers with a response: status 401 or 403
    raises [AuthenticationError]; 429 raises [RateLimitError]; any other
    status from 400 on raises [APIError] with a message made of the
    status code and the body text; below 400 a body that decodes is
    returned. *)
Theorem make_request_status (self : Provider) (url method : string)
    (params : option (gmap string pyval)) (data : option pyval)
    (headers : option (gmap string string)) (log : list Request)
    (response : Response) :
  str_upper method = "GET" \/ str_upper method = "POST" ->
  (forall req, session self req = inr response) ->
  let outcome :=
    fst (_make_request str_upper self url method params data headers log) in
  (status_code response = 401 \/ status_code response = 403 ->
     outcome = Raise (AuthenticationError "Invalid API key or insufficient permissions")) /\
  (status_code response = 429 ->
     outcome = Raise (RateLimitError "API rate limit exceeded. Please try again later.")) /\
  (400 <= status_code response -> status_code response <> 401 ->
   status_code response <> 403 -> status_code response <> 429 ->
     outcome = Raise (APIError ("API request failed with status "
                                +:+ pretty (status_code response)
                                +:+ ": " +:+ text response))) /\
  (forall body, status_code response < 400 -> json response = inr body ->
     outcome = Ok body).
Proof.
  intros Hm Hnet outcome.
  assert (Hout : outcome = check_response self response).
  { unfold outcome, _make_request, send.
    destruct Hm as [-> | ->]; cbn [String.eqb Ascii.eqb Bool.eqb fst];
      now rewrite Hnet. }
  rewrite Hout. unfold check_response. repeat split.
  - intros [-> | ->]; reflexivity.
  - intros ->. reflexivity.
  - intros H400 H401 H403 H429.
    rewrite (proj2 (Z.eqb_neq _ _) H401), (proj2 (Z.eqb_neq _ _) H403),
      (proj2 (Z.eqb_neq _ _) H429). cbn [orb].
    now rewrite (proj2 (Z.leb_le _ _) H400).
  - intros body Hlt Hjson.
    assert ((status_code response =? 401) = false) as -> by (apply Z.eqb_neq; lia).
    assert ((status_code response =? 403) = false) as -> by (apply Z.eqb_neq; lia).
    assert ((status_code response =? 429) = false) as -> by (apply Z.eqb_neq; lia).
    assert ((400 <=? status_code response) = false) as -> by (apply Z.leb_gt; lia).
    cbn [orb]. now rewrite Hjson.
Qed.


(** *** Decoded responses *)

Lemma make_request_decoded (self : Provider) (url : string)
    (params : option (gmap string pyval)) (data : option pyval)
    (headers : option (gmap string string)) (body : pyval)
    (log : list Request) :
  decoded_response self body ->
  exists req,
    _make_request str_upper self url "GET" params data headers log
    = (Ok body, (log ++ [req])%list).
Proof.
  intros Hdec. unfold _make_request. rewrite upper_GET.
  cbn [String.eqb Ascii.eqb Bool.eqb]. unfold send.
  match goal with |- context [session self ?r] => destruct (Hdec r) as (resp & -> & ->) end.
  eauto.
Qed.

Lemma over_features_none {A} (body : pyval -> result A)
    (d : gmap string pyval) :
  d !! "features" = None \/ d !! "features" = Some (PyList []) ->
  over_features body (PyDict d) = Ok [].
Proof.
  unfold over_features. cbn [py_contains py_getitem rbind].
  intros [-> | ->]; reflexivity.
Qed.

(** C9.  When the decoded response has no ["features"] key, or an empty
    list of features, [geocode] with a non-blank query, [reverse_geocode]
    with a valid point and [autocomplete] with a non-blank query and a
    limit within 1..50 all return the empty list. *)
Theorem search_without_features (self : Provider) (d : gmap string pyval)
    (log : list Request) :
  decoded_response self (PyDict d) ->
  d !! "features" = None \/ d !! "features" = Some (PyList []) ->
  (forall query,
     blank_query str_strip query = false ->
     fst (geocode str_upper str_strip self query log) = Ok []) /\
  (forall p,
     _validate_location (ObjGeoPoint p) "location" = Ok tt ->
     fst (reverse_geocode str_upper self (ObjGeoPoint p) log) = Ok []) /\
  (forall query limit,
     blank_query str_strip query = false -> 1 <= limit <= 50 ->
     fst (autocomplete str_upper str_strip self query limit log) = Ok []).
Proof.
  intros Hdec Hnone. repeat split.
  - intros query Hq. unfold geocode. rewrite Hq. unfold mbind, lift.
    match goal with
    | |- context [_make_request _ _ ?u _ ?p ?a ?h ?l] =>
        destruct (make_request_decoded self u p a h _ l Hdec) as [req ->]
    end.
    now rewrite over_features_none.
  - intros p Hp. unfold reverse_geocode, mbind, lift. rewrite Hp.
    cbn [attr_latitude attr_longitude].
    match goal with
    | |- context [_make_request _ _ ?u _ ?p ?a ?h ?l] =>
        destruct (make_request_decoded self u p a h _ l Hdec) as [req ->]
    end.
    now rewrite over_features_none.
  - intros query limit Hq [Hlo Hhi]. unfold autocomplete. rewrite Hq.
    assert ((limit <? 1) = false) as -> by (apply Z.ltb_ge; lia).
    assert ((50 <? limit) = false) as -> by (apply Z.ltb_ge; lia).
    cbn [orb]. unfold mbind, lift.
    match goal with
    | |- context [_make_request _ _ ?u _ ?p ?a ?h ?l] =>
        destruct (make_request_decoded self u p a h _ l Hdec) as [req ->]
    end.
    now rewrite over_features_none.
Qed.


(** *** Routing *)

(** What [route] does once both endpoints are validated points and the
    response is decoded: the request is issued and the body parsed. *)
Lemma route_decoded (self : Provider) (ps pt : GeoPoint) (mode : TravelMode)
    (body : pyval) (log : list Request) :
  _validate_location (ObjGeoPoint ps) "source" = Ok tt ->
  _validate_location (ObjGeoPoint pt) "target" = Ok tt ->
  decoded_response self body ->
  exists req,
    route str_upper py_format self (ObjGeoPoint ps) (ObjGeoPoint pt) mode log
    = (parse_route body, (log ++ [req])%list).
Proof.
  intros Hs Ht Hdec. unfold route, mbind, lift. rewrite Hs, Ht.
  cbn [format_location attr_latitude attr_longitude rbind].
  match goal with
  | |- context [_make_request _ _ ?u _ ?p ?a ?h ?l] =>
      destruct (make_request_decoded self u p a h _ l Hdec) as [req ->]
  end.
  eauto.
Qed.

(** C5.  A [route] call with validated endpoints whose decoded response
    has no ["features"] key, or features of length zero, raises
    [APIError] "No route found ...". *)
Theorem route_without_features (self : Provider) (ps pt : GeoPoint)
    (mode : TravelMode) (d : gmap string pyval) (log : list Request) :
  _validate_location (ObjGeoPoint ps) "source" = Ok tt ->
  _validate_location (ObjGeoPoint pt) "target" = Ok tt ->
  decoded_response self (PyDict d) ->
  d !! "features" = None \/
  (exists fs, d !! "features" = Some fs /\ py_len fs = Ok 0) ->
  fst (route str_upper py_format self (ObjGeoPoint ps) (ObjGeoPoint pt) mode log)
  = Raise (APIError "No route found between the provided locations").
Proof.
  intros Hs Ht Hdec Hnone.
  destruct (route_decoded self ps pt mode _ log Hs Ht Hdec) as [req ->].
  cbn [fst]. unfold parse_route.
  cbn [py_truthy String.eqb negb py_get default_or rbind].
  destruct Hnone as [-> | (fs & -> & Hlen)]; cbn [default_or].
  - reflexivity.
  - now rewrite Hlen.
Qed.

Lemma route_info_of_props (distance duration : pyval) (qd qt : spec_float) :
  distance <> PyNone -> duration <> PyNone ->
  py_truediv_int distance 1000 = Ok qd ->
  py_truediv_int duration 60 = Ok qt ->
  RouteInfo_init distance duration None None
  = Ok {| distance_km := PFloat qd; duration_minutes := PFloat qt |}.
Proof.
  intros Hd Ht Hqd Hqt. unfold RouteInfo_init.
  destruct distance; try congruence; rewrite Hqd; cbn [rbind];
    destruct duration; try congruence; rewrite Hqt; reflexivity.
Qed.

(** The first feature's properties decide what [parse_route] gives. *)
Lemma parse_route_first (d fd props : gmap string pyval) (rest : list pyval) :
  d !! "features" = Some (PyList (PyDict fd :: rest)) ->
  feature_props fd = Some props ->
  parse_route (PyDict d)
  = RouteInfo_init (default_or (props !! "distance") (PyInt 0))
      (default_or (props !! "time") (PyInt 0)) None None.
Proof.
  intros Hf Hp. unfold parse_route.
  cbn [py_truthy String.eqb negb py_get py_getitem rbind].
  rewrite Hf. cbn [default_or py_len length rbind py_index lookup].
  replace (0 <? Z.of_nat (S (length rest))) with true by (symmetry; apply Z.ltb_lt; lia).
  cbn [list_lookup rbind py_get].
  unfold feature_props in Hp.
  destruct (fd !! "properties") as [v|]; cbn [default_or].
  - destruct v; try discriminate. injection Hp as ->. reflexivity.
  - injection Hp as <-. rewrite !lookup_empty. reflexivity.
Qed.

(** C10 (amended).  When the first feature of the decoded response is a
    mapping whose properties lack the ["distance"] or the ["time"] key
    (or are absent), the missing value defaults to 0, and the call
    succeeds provided each value that is present is one that [RouteInfo]
    accepts (not [None], and dividing it by 1000, resp. 60, returns); the
    resulting [RouteInfo] then reports 0 metres, resp. 0 seconds, for the
    missing value. *)
Theorem route_missing_defaults (self : Provider) (ps pt : GeoPoint)
    (mode : TravelMode) (d fd props : gmap string pyval) (rest : list pyval)
    (log : list Request) :
  _validate_location (ObjGeoPoint ps) "source" = Ok tt ->
  _validate_location (ObjGeoPoint pt) "target" = Ok tt ->
  decoded_response self (PyDict d) ->
  d !! "features" = Some (PyList (PyDict fd :: rest)) ->
  feature_props fd = Some props ->
  props !! "distance" = None \/ props !! "time" = None ->
  (forall v, props !! "distance" = Some v -> divides_by v 1000) ->
  (forall v, props !! "time" = Some v -> divides_by v 60) ->
  exists r,
    fst (route str_upper py_format self (ObjGeoPoint ps) (ObjGeoPoint pt) mode log)
    = Ok r /\
    (props !! "distance" = None -> RouteInfo_distance r = Ok 0) /\
    (props !! "time" = None -> RouteInfo_duration r = Ok 0).
Proof.
  intros Hs Ht Hdec Hf Hp _ Hdist Htime.
  destruct (route_decoded self ps pt mode _ log Hs Ht Hdec) as [req ->].
  cbn [fst]. rewrite (parse_route_first d fd props rest Hf Hp).
  assert (Hd : exists qd,
             default_or (props !! "distance") (PyInt 0) <> PyNone /\
             py_truediv_int (default_or (props !! "distance") (PyInt 0)) 1000 = Ok qd /\
             (props !! "distance" = None -> qd = S754_zero false)).
  { destruct (props !! "distance") as [v|]; cbn [default_or].
    - destruct (Hdist v eq_refl) as [Hv Hok].
      destruct (py_truediv_int v 1000) as [qd|]; [|discriminate].
      exists qd. repeat split; [assumption|discriminate].
    - exists (S754_zero false). repeat split; discriminate. }
  assert (Hm : exists qt,
             default_or (props !! "time") (PyInt 0) <> PyNone /\
             py_truediv_int (default_or (props !! "time") (PyInt 0)) 60 = Ok qt /\
             (props !! "time" = None -> qt = S754_zero false)).
  { destruct (props !! "time") as [v|]; cbn [default_or].
    - destruct (Htime v eq_refl) as [Hv Hok].
      destruct (py_truediv_int v 60) as [qt|]; [|discriminate].
      exists qt. repeat split; [assumption|discriminate].
    - exists (S754_zero false). repeat split; discriminate. }
  destruct Hd as (qd & Hd1 & Hd2 & Hd3), Hm as (qt & Hm1 & Hm2 & Hm3).
  rewrite (route_info_of_props _ _ qd qt Hd1 Hm1 Hd2 Hm2).
  eexists. split; [reflexivity|]. split.
  - intros Hn. rewrite (Hd3 Hn). reflexivity.
  - intros Hn. rewrite (Hm3 Hn). reflexivity.
Qed.

(** Every float is accepted by [RouteInfo]. *)
Lemma divides_by_float (f : spec_float) (k : positive) :
  is_ok (float_of_int (Zpos k)) = true -> divides_by (PyFloat f) k.
Proof.
  intros Hk. split; [discriminate|]. now rewrite py_truediv_float.
Qed.


(** *** The distance matrix *)

Lemma join_locations_points (ps : list GeoPoint) :
  is_ok (join_locations py_format (ObjGeoPoint <$> ps)) = true.
Proof.
  unfold join_locations.
  assert (H : exists parts,
             for_each (format_location py_format) (ObjGeoPoint <$> ps) = Ok parts).
  { induction ps as [|p ps [parts IH]]; [now exists []|].
    cbn [fmap list_fmap for_each format_location attr_latitude attr_longitude rbind].
    change (list_fmap GeoPoint pyobj ObjGeoPoint ps) with (ObjGeoPoint <$> ps).
    rewrite IH. eauto. }
  destruct H as [parts ->]. reflexivity.
Qed.

Lemma matrix_row_cells (row : list (gmap string pyval)) :
  matrix_row (PyList (PyDict <$> row))
  = Ok ((fun cell => (cell_distance cell, cell_time cell)) <$> row).
Proof.
  unfold matrix_row. cbn [py_iter rbind].
  induction row as [|cell row IH]; [reflexivity|].
  cbn [fmap list_fmap for_each matrix_cell py_get rbind].
  change (list_fmap _ _ PyDict row) with (PyDict <$> row).
  now rewrite IH.
Qed.

Lemma matrix_rows_cells (grid : list (list (gmap string pyval))) :
  for_each matrix_row ((fun row => PyList (PyDict <$> row)) <$> grid)
  = Ok (map (map (fun cell => (cell_distance cell, cell_time cell))) grid).
Proof.
  induction grid as [|row grid IH]; [reflexivity|].
  cbn [fmap list_fmap for_each rbind map]. rewrite matrix_row_cells.
  cbn [rbind].
  change (list_fmap _ _ (fun row => PyList (PyDict <$> row)) grid)
    with ((fun row => PyList (PyDict <$> row)) <$> grid).
  now rewrite IH.
Qed.

Lemma parse_matrix_grid (d : gmap string pyval)
    (grid : list (list (gmap string pyval))) :
  d !! "sources_to_targets" = Some (grid_json grid) ->
  parse_matrix (PyDict d)
  = Ok (map (map cell_distance) grid, map (map cell_time) grid).
Proof.
  intros Hd. unfold parse_matrix. cbn [py_contains py_getitem rbind].
  rewrite Hd. rewrite bool_decide_eq_true_2 by eauto.
  unfold grid_json. cbn [py_iter rbind].
  rewrite matrix_rows_cells. cbn [rbind]. f_equal. f_equal.
  - rewrite map_map. apply map_ext. intros row. rewrite map_map. reflexivity.
  - rewrite map_map. apply map_ext. intros row. rewrite map_map. reflexivity.
Qed.

Lemma parse_matrix_absent (d : gmap string pyval) :
  d !! "sources_to_targets" = None -> parse_matrix (PyDict d) = Ok ([], []).
Proof.
  intros Hd. unfold parse_matrix. cbn [py_contains rbind]. now rewrite Hd.
Qed.

Lemma rows_length_map {A B} (f : A -> B) (n : nat) (grid : list (list A)) :
  Forall (fun row => length row = n) (map (map f) grid)
  <-> Forall (fun row => length row = n) grid.
Proof.
  rewrite Forall_map.
  split; intros H; (eapply Forall_impl; [exact H|]); intros row; cbn;
    now rewrite length_map.
Qed.

(** What [distance_matrix] does once both lists pass validation and the
    cap and the response is decoded. *)
Lemma distance_matrix_decoded (self : Provider) (ps pt : list GeoPoint)
    (mode : TravelMode) (units : DistanceUnit) (body : pyval)
    (log : list Request) :
  _validate_locations_list (ObjGeoPoint <$> ps) "sources" = Ok tt ->
  _validate_locations_list (ObjGeoPoint <$> pt) "targets" = Ok tt ->
  (length ps <= 10)%nat -> (length pt <= 10)%nat ->
  decoded_response self body ->
  fst (distance_matrix str_upper py_format self
         (ObjGeoPoint <$> ps) (ObjGeoPoint <$> pt) mode units log)
  = (grids <- parse_matrix body ;;
     Ok {| distances := fst grids; durations := snd grids;
           unit_label := "metric";
           sources := Some (ObjGeoPoint <$> ps);
           targets := Some (ObjGeoPoint <$> pt) |}).
Proof.
  intros Hs Ht Hls Hlt Hdec. unfold distance_matrix, mbind, lift, mret.
  rewrite Hs, Ht. rewrite !length_fmap.
  replace (10 <? Z.of_nat (length ps)) with false by (symmetry; apply Z.ltb_ge; lia).
  replace (10 <? Z.of_nat (length pt)) with false by (symmetry; apply Z.ltb_ge; lia).
  cbn [orb].
  pose proof (join_locations_points ps) as Hjs.
  pose proof (join_locations_points pt) as Hjt.
  destruct (join_locations py_format (ObjGeoPoint <$> ps)); [|discriminate].
  destruct (join_locations py_format (ObjGeoPoint <$> pt)); [|discriminate].
  match goal with
  | |- context [_make_request _ _ ?u _ ?p ?a ?h ?l] =>
      destruct (make_request_decoded self u p a h _ l Hdec) as [req ->]
  end.
  destruct (parse_matrix body); reflexivity.
Qed.

(** C1 (amended).  For a [distance_matrix] call that passes validation and
    receives a decoded response, the grids mirror the response: without a
    ["sources_to_targets"] key both are empty; with a grid of cells under
    that key, [distances[i][j]] and [durations[i][j]] are the
    ["distance"] and ["time"] entries (0 when absent) of cell [j] of row
    [i].  So the grids have [len(sources)] rows and [len(targets)]
    columns when the response grid has, and only then. *)
Theorem distance_matrix_mirrors_response (self : Provider)
    (ps pt : list GeoPoint) (mode : TravelMode) (units : DistanceUnit)
    (d : gmap string pyval) (log : list Request) :
  _validate_locations_list (ObjGeoPoint <$> ps) "sources" = Ok tt ->
  _validate_locations_list (ObjGeoPoint <$> pt) "targets" = Ok tt ->
  (length ps <= 10)%nat -> (length pt <= 10)%nat ->
  decoded_response self (PyDict d) ->
  let outcome :=
    fst (distance_matrix str_upper py_format self
           (ObjGeoPoint <$> ps) (ObjGeoPoint <$> pt) mode units log) in
  (d !! "sources_to_targets" = None ->
     exists res, outcome = Ok res /\ distances res = [] /\ durations res = []) /\
  (forall grid,
     d !! "sources_to_targets" = Some (grid_json grid) ->
     exists res,
       outcome = Ok res /\
       distances res = map (map cell_distance) grid /\
       durations res = map (map cell_time) grid /\
       sources res = Some (ObjGeoPoint <$> ps) /\
       targets res = Some (ObjGeoPoint <$> pt) /\
       (length (distances res) = length ps /\
        Forall (fun row => length row = length pt) (distances res) /\
        length (durations res) = length ps /\
        Forall (fun row => length row = length pt) (durations res)
        <->
        length grid = length ps /\
        Forall (fun row => length row = length pt) grid)).
Proof.
  intros Hs Ht Hls Hlt Hdec outcome.
  unfold outcome.
  rewrite (distance_matrix_decoded self ps pt mode units _ log Hs Ht Hls Hlt Hdec).
  split.
  - intros Hnone. rewrite (parse_matrix_absent d Hnone). cbn [rbind fst snd].
    eexists. repeat split; reflexivity.
  - intros grid Hgrid. rewrite (parse_matrix_grid d grid Hgrid).
    cbn [rbind fst snd]. eexists. split; [reflexivity|].
    cbn [distances durations sources targets].
    do 4 (split; [reflexivity|]).
    rewrite !length_map, !rows_length_map. tauto.
Qed.


(** *** Coordinates of search results *)

Lemma for_each_elem {A B} (body : A -> result B) (l : list A) (rs : list B)
    (x : A) :
  for_each body l = Ok rs -> x ∈ l -> exists y, body x = Ok y /\ y ∈ rs.
Proof.
  revert rs. induction l as [|a l IH]; intros rs Hrs Hx.
  - inversion Hx.
  - cbn [for_each] in Hrs.
    destruct (body a) as [b|] eqn:Hb; cbn [rbind] in Hrs; [|discriminate].
    destruct (for_each body l) as [bs|]; cbn [rbind] in Hrs; [|discriminate].
    injection Hrs as <-.
    apply elem_of_cons in Hx as [-> | Hx].
    + exists b. split; [assumption | now left].
    + destruct (IH bs eq_refl Hx) as (y & Hy & Hin). exists y.
      split; [assumption | now right].
Qed.

Lemma over_features_list {A} (body : pyval -> result A)
    (d : gmap string pyval) (features : list pyval) :
  d !! "features" = Some (PyList features) ->
  over_features body (PyDict d) = for_each body features.
Proof.
  intros Hd. unfold over_features. cbn [py_contains py_getitem rbind].
  rewrite Hd. rewrite bool_decide_eq_true_2 by eauto. cbn [py_iter rbind].
  destruct (for_each body features); reflexivity.
Qed.

Section Swap.

(** A feature whose geometry holds the coordinate list [[x, y, ...]]. *)
Variables (fd g : gmap string pyval) (x y : pyval) (rest : list pyval).
Hypothesis has_geometry : fd !! "geometry" = Some (PyDict g).
Hypothesis has_coordinates :
  g !! "coordinates" = Some (PyList (x :: y :: rest)).

Lemma feature_coords_list :
  feature_coords (PyDict fd) = Ok (PyList (x :: y :: rest)).
Proof.
  unfold feature_coords. cbn [py_get rbind].
  rewrite has_geometry. cbn [default_or py_get]. now rewrite has_coordinates.
Qed.

Lemma usable_coords_list : usable_coords (PyList (x :: y :: rest)) = Ok true.
Proof.
  unfold usable_coords. cbn [py_truthy py_len length rbind]. f_equal.
  apply Z.leb_le. lia.
Qed.

Lemma point_of_coords_list :
  point_of_coords (PyList (x :: y :: rest))
  = Ok {| latitude := y; longitude := x |}.
Proof. reflexivity. Qed.

Lemma geocode_feature_swaps (res : option GeocodingResult) :
  geocode_feature (PyDict fd) = Ok res ->
  exists r, res = Some r /\
            location r = {| latitude := y; longitude := x |} /\
            raw_data r = PyDict fd.
Proof.
  unfold geocode_feature. rewrite feature_coords_list.
  cbn [py_get rbind]. rewrite usable_coords_list, point_of_coords_list.
  cbn [rbind].
  destruct (address_of_props _) as [addr|]; cbn [rbind]; [|discriminate].
  destruct (default_or (fd !! "properties") (PyDict ∅)) as [ | | | | | |props];
    cbn [py_get rbind]; try discriminate.
  destruct (default_or (props !! "rank") (PyDict ∅)) as [ | | | | | |rank];
    cbn [py_get rbind]; try discriminate.
  intros [= <-]. eexists. repeat split.
Qed.

Lemma autocomplete_feature_swaps (res : option AutocompleteResult.t) :
  autocomplete_feature (PyDict fd) = Ok res ->
  exists r, res = Some r /\
            AutocompleteResult.location r = {| latitude := y; longitude := x |} /\
            AutocompleteResult.raw_data r = PyDict fd.
Proof.
  unfold autocomplete_feature. rewrite feature_coords_list.
  cbn [py_get rbind]. rewrite usable_coords_list, point_of_coords_list.
  cbn [rbind].
  destruct (address_of_props _) as [addr|]; cbn [rbind]; [|discriminate].
  intros [= <-]. eexists. repeat split.
Qed.

Lemma address_of_plain_props (props : gmap string pyval) :
  feature_props fd = Some props ->
  default_or (fd !! "properties") (PyDict ∅) = PyDict props /\
  is_ok (address_of_props (PyDict props)) = true.
Proof.
  unfold feature_props. intros Hp. split; [|reflexivity].
  destruct (fd !! "properties") as [v|]; cbn [default_or].
  - destruct v; try discriminate. now injection Hp as ->.
  - now injection Hp as <-.
Qed.

Lemma geocode_feature_returns (props : gmap string pyval) :
  feature_props fd = Some props -> plain_rank props ->
  is_ok (geocode_feature (PyDict fd)) = true.
Proof.
  intros Hp Hr. destruct (address_of_plain_props props Hp) as [Hprops Haddr].
  unfold geocode_feature. rewrite feature_coords_list.
  cbn [py_get rbind]. rewrite usable_coords_list, point_of_coords_list.
  cbn [rbind]. rewrite Hprops.
  destruct (address_of_props (PyDict props)); [|discriminate].
  cbn [py_get rbind].
  destruct Hr as [-> | [rank ->]]; reflexivity.
Qed.

Lemma autocomplete_feature_returns (props : gmap string pyval) :
  feature_props fd = Some props ->
  is_ok (autocomplete_feature (PyDict fd)) = true.
Proof.
  intros Hp. destruct (address_of_plain_props props Hp) as [Hprops Haddr].
  unfold autocomplete_feature. rewrite feature_coords_list.
  cbn [py_get rbind]. rewrite usable_coords_list, point_of_coords_list.
  cbn [rbind]. rewrite Hprops.
  destruct (address_of_props (PyDict props)); [|discriminate].
  reflexivity.
Qed.

End Swap.

(** C8.  For a feature whose geometry coordinates are the list
    [[x, y, ...]], the result that [geocode], resp. [autocomplete],
    constructs has latitude [y] and longitude [x]: the loop body never
    skips such a feature and never keeps the wire order, it constructs
    the result whenever the properties (and for [geocode] the rank) are
    mappings or absent, every such feature of a response has its result,
    with the coordinates swapped, in the list a call returns, and on a
    response of well-formed features the call does return that list. *)
Theorem search_swaps_coordinates (fd g : gmap string pyval) (x y : pyval)
    (rest : list pyval) :
  fd !! "geometry" = Some (PyDict g) ->
  g !! "coordinates" = Some (PyList (x :: y :: rest)) ->
  let swapped := {| latitude := y; longitude := x |} in
  (forall res, geocode_feature (PyDict fd) = Ok res ->
     exists r, res = Some r /\ location r = swapped /\ raw_data r = PyDict fd) /\
  (forall res, autocomplete_feature (PyDict fd) = Ok res ->
     exists r, res = Some r /\ AutocompleteResult.location r = swapped /\
               AutocompleteResult.raw_data r = PyDict fd) /\
  (forall props, feature_props fd = Some props -> plain_rank props ->
     is_ok (geocode_feature (PyDict fd)) = true) /\
  (forall props, feature_props fd = Some props ->
     is_ok (autocomplete_feature (PyDict fd)) = true) /\
  (forall self query d features log results,
     decoded_response self (PyDict d) ->
     d !! "features" = Some (PyList features) ->
     PyDict fd ∈ features ->
     fst (geocode str_upper str_strip self query log) = Ok results ->
     exists r, r ∈ results /\ location r = swapped /\ raw_data r = PyDict fd) /\
  (forall self query limit d features log results,
     decoded_response self (PyDict d) ->
     d !! "features" = Some (PyList features) ->
     PyDict fd ∈ features ->
     fst (autocomplete str_upper str_strip self query limit log) = Ok results ->
     exists r, r ∈ results /\ AutocompleteResult.location r = swapped /\
               AutocompleteResult.raw_data r = PyDict fd) /\
  (forall self query d features log,
     decoded_response self (PyDict d) ->
     d !! "features" = Some (PyList features) ->
     Forall plain_feature features ->
     PyDict fd ∈ features ->
     blank_query str_strip query = false ->
     exists results r,
       fst (geocode str_upper str_strip self query log) = Ok results /\
       r ∈ results /\ location r = swapped /\ raw_data r = PyDict fd) /\
  (forall self query limit d features log,
     decoded_response self (PyDict d) ->
     d !! "features" = Some (PyList features) ->
     Forall plain_feature features ->
     PyDict fd ∈ features ->
     blank_query str_strip query = false -> 1 <= limit <= 50 ->
     exists results r,
       fst (autocomplete str_upper str_strip self query limit log) = Ok results /\
       r ∈ results /\ AutocompleteResult.location r = swapped /\
       AutocompleteResult.raw_data r = PyDict fd).
Proof.
  intros Hg Hc swapped.
  split; [exact (geocode_feature_swaps fd g x y rest Hg Hc)|].
  split; [exact (autocomplete_feature_swaps fd g x y rest Hg Hc)|].
  split; [exact (geocode_feature_returns fd g x y rest Hg Hc)|].
  split; [exact (autocomplete_feature_returns fd g x y rest Hg Hc)|].
  split; [|split; [|split]].
  - intros self query d features log results Hdec Hd Hin.
    unfold geocode. destruct (blank_query str_strip query); [discriminate|].
    unfold mbind, lift.
    match goal with
    | |- context [_make_request _ _ ?u _ ?p ?a ?h ?l] =>
        destruct (make_request_decoded self u p a h _ l Hdec) as [req ->]
    end.
    cbn [fst]. rewrite (over_features_list _ d features Hd).
    destruct (for_each geocode_feature features) as [found|] eqn:Hfound;
      cbn [rbind]; [|discriminate].
    intros [= <-].
    destruct (for_each_elem _ _ _ _ Hfound Hin) as (res & Hres & Hmem).
    destruct (geocode_feature_swaps fd g x y rest Hg Hc res Hres)
      as (r & -> & Hloc & Hraw).
    exists r. split; [|now split].
    apply list_elem_of_omap. exists (Some r). now split.
  - intros self query limit d features log results Hdec Hd Hin.
    unfold autocomplete. destruct (blank_query str_strip query); [discriminate|].
    destruct ((limit <? 1) || (50 <? limit)); [discriminate|].
    unfold mbind, lift.
    match goal with
    | |- context [_make_request _ _ ?u _ ?p ?a ?h ?l] =>
        destruct (make_request_decoded self u p a h _ l Hdec) as [req ->]
    end.
    cbn [fst]. rewrite (over_features_list _ d features Hd).
    destruct (for_each autocomplete_feature features) as [found|] eqn:Hfound;
      cbn [rbind]; [|discriminate].
    intros [= <-].
    destruct (for_each_elem _ _ _ _ Hfound Hin) as (res & Hres & Hmem).
    destruct (autocomplete_feature_swaps fd g x y rest Hg Hc res Hres)
      as (r & -> & Hloc & Hraw).
    exists r. split; [|now split].
    apply list_elem_of_omap. exists (Some r). now split.
  - intros self query d features log Hdec Hd Hplain Hin Hq.
    unfold geocode. rewrite Hq. unfold mbind, lift.
    match goal with
    | |- context [_make_request _ _ ?u _ ?p ?a ?h ?l] =>
        destruct (make_request_decoded self u p a h _ l Hdec) as [req ->]
    end.
    cbn [fst]. rewrite (over_features_list _ d features Hd).
    destruct (for_each_keeps_order geocode_feature raw_data address features)
      as (found & Hfound & _ & _).
    { eapply Forall_impl; [exact Hplain|]. apply geocode_feature_plain. }
    rewrite Hfound. cbn [rbind].
    destruct (for_each_elem _ _ _ _ Hfound Hin) as (res & Hres & Hmem).
    destruct (geocode_feature_swaps fd g x y rest Hg Hc res Hres)
      as (r & -> & Hloc & Hraw).
    exists (omap id found), r. split; [reflexivity|].
    split; [|now split].
    apply list_elem_of_omap. exists (Some r). now split.
  - intros self query limit d features log Hdec Hd Hplain Hin Hq [Hlo Hhi].
    unfold autocomplete. rewrite Hq.
    replace ((limit <? 1) || (50 <? limit)) with false; cycle 1.
    { symmetry. apply orb_false_iff. split; apply Z.ltb_ge; lia. }
    unfold mbind, lift.
    match goal with
    | |- context [_make_request _ _ ?u _ ?p ?a ?h ?l] =>
        destruct (make_request_decoded self u p a h _ l Hdec) as [req ->]
    end.
    cbn [fst]. rewrite (over_features_list _ d features Hd).
    destruct (for_each_keeps_order autocomplete_feature
                AutocompleteResult.raw_data AutocompleteResult.address features)
      as (found & Hfound & _ & _).
    { eapply Forall_impl; [exact Hplain|]. apply autocomplete_feature_plain. }
    rewrite Hfound. cbn [rbind].
    destruct (for_each_elem _ _ _ _ Hfound Hin) as (res & Hres & Hmem).
    destruct (autocomplete_feature_swaps fd g x y rest Hg Hc res Hres)
      as (r & -> & Hloc & Hraw).
    exists (omap id found), r. split; [reflexivity|].
    split; [|now split].
    apply list_elem_of_omap. exists (Some r). now split.
Qed.

End Properties.


(** ** The theorems at sample calls *)

Lemma decoded_by_sample (body : pyval) :
  decoded_response (sample_provider body) body.
Proof. intros req. eexists. split; reflexivity. Qed.

Lemma sf_point_valid (name : string) :
  _validate_location (ObjGeoPoint sf_point) name = Ok tt.
Proof. reflexivity. Qed.

Lemma distance_matrix_cap_witness :
  exists msg,
    distance_matrix ascii_upper ascii_format (sample_provider PyNone)
      (replicate 11 san_francisco) [san_francisco] DRIVING KILOMETERS []
    = (Raise (ValidationError msg), []).
Proof.
  apply (distance_matrix_cap ascii_upper ascii_format (sample_provider PyNone)
           (replicate 11 san_francisco) [san_francisco] DRIVING KILOMETERS []).
  - left. vm_compute. lia.
  - repeat constructor.
  - repeat constructor.
Defined.

Lemma make_request_status_witness :
  fst (_make_request ascii_upper failing_provider "https://example.org" "get"
         None None None [])
  = Raise (APIError "API request failed with status 404: Not Found").
Proof.
  apply (make_request_status ascii_upper failing_provider "https://example.org"
           "get" None None None [] missing_page).
  - left. reflexivity.
  - intros req. reflexivity.
  - vm_compute. discriminate.
  - discriminate.
  - discriminate.
  - discriminate.
Defined.

Lemma search_without_features_witness :
  fst (geocode ascii_upper ascii_strip (sample_provider (PyDict no_features))
         "Berlin" []) = Ok [].
Proof.
  apply (search_without_features ascii_upper ascii_strip eq_refl
           (sample_provider (PyDict no_features)) no_features []).
  - apply decoded_by_sample.
  - left. reflexivity.
  - reflexivity.
Defined.

Lemma route_without_features_witness :
  fst (route ascii_upper ascii_format (sample_provider (PyDict no_features))
         san_francisco san_francisco DRIVING [])
  = Raise (APIError "No route found between the provided locations").
Proof.
  apply (route_without_features ascii_upper ascii_format eq_refl
           (sample_provider (PyDict no_features)) sf_point sf_point DRIVING
           no_features []).
  - reflexivity.
  - reflexivity.
  - apply decoded_by_sample.
  - left. reflexivity.
Defined.

Lemma route_missing_defaults_witness :
  exists r,
    fst (route ascii_upper ascii_format (sample_provider (PyDict timed_response))
           san_francisco san_francisco DRIVING []) = Ok r /\
    RouteInfo_distance r = Ok 0.
Proof.
  destruct (route_missing_defaults ascii_upper ascii_format eq_refl
              (sample_provider (PyDict timed_response)) sf_point sf_point
              DRIVING timed_response timed_feature timed_props [] [])
    as (r & Hr & Hd & _).
  - reflexivity.
  - reflexivity.
  - apply decoded_by_sample.
  - vm_compute. reflexivity.
  - vm_compute. reflexivity.
  - left. vm_compute. reflexivity.
  - intros v Hv. vm_compute in Hv. discriminate.
  - intros v Hv. vm_compute in Hv. injection Hv as <-.
    split; [discriminate | vm_compute; reflexivity].
  - exists r. split; [exact Hr|]. apply Hd. vm_compute. reflexivity.
Defined.

(** C10 (as stated) fails: the first feature's properties lack the
    ["distance"] key and hold a null ["time"]; the call raises. *)
Lemma route_null_time_raises :
  null_time_response !! "features" = Some (PyList [PyDict null_time_feature]) /\
  feature_props null_time_feature = Some null_time_props /\
  null_time_props !! "distance" = None /\
  fst (route ascii_upper ascii_format
         (sample_provider (PyDict null_time_response))
         san_francisco san_francisco DRIVING [])
  = Raise (TypeError "Either duration or duration_minutes must be provided").
Proof. repeat split; vm_compute; reflexivity. Qed.

Lemma distance_matrix_mirrors_response_witness :
  exists res,
    fst (distance_matrix ascii_upper ascii_format
           (sample_provider (PyDict one_cell_response))
           (ObjGeoPoint <$> [sf_point]) (ObjGeoPoint <$> [sf_point])
           DRIVING KILOMETERS []) = Ok res /\
    distances res = [[PyInt 50000]] /\ durations res = [[PyInt 1800]].
Proof.
  destruct (distance_matrix_mirrors_response ascii_upper ascii_format eq_refl
              (sample_provider (PyDict one_cell_response))
              [sf_point] [sf_point] DRIVING KILOMETERS one_cell_response [])
    as [_ H].
  - reflexivity.
  - reflexivity.
  - vm_compute. lia.
  - vm_compute. lia.
  - apply decoded_by_sample.
  - destruct (H [[one_cell]]) as (res & Hres & Hd & Ht & _).
    + vm_compute. reflexivity.
    + exists res. split; [exact Hres|]. split.
      * rewrite Hd. vm_compute. reflexivity.
      * rewrite Ht. vm_compute. reflexivity.
Defined.

(** C1 (as stated) fails: one source and one target pass validation, the
    response is decoded and has no ["sources_to_targets"] key; the grids
    have no row. *)
Lemma distance_matrix_without_grid :
  exists res,
    fst (distance_matrix ascii_upper ascii_format
           (sample_provider (PyDict no_features))
           [san_francisco] [san_francisco] DRIVING KILOMETERS []) = Ok res /\
    length (distances res) = 0%nat /\
    length (durations res) = 0%nat /\
    length [san_francisco] = 1%nat.
Proof. eexists. repeat split; vm_compute; reflexivity. Qed.

Lemma berlin_feature_plain : plain_feature (PyDict berlin_feature).
Proof.
  exists berlin_feature, ∅, [PyInt 13; PyInt 52].
  split; [reflexivity|]. split; [vm_compute; reflexivity|].
  split; [left; reflexivity | vm_compute; reflexivity].
Qed.

Lemma search_swaps_coordinates_witness :
  exists results r,
    fst (geocode ascii_upper ascii_strip
           (sample_provider (PyDict berlin_response)) "Berlin" []) = Ok results /\
    r ∈ results /\
    location r = {| latitude := PyInt 52; longitude := PyInt 13 |}.
Proof.
  destruct (search_swaps_coordinates ascii_upper ascii_strip eq_refl
              berlin_feature berlin_geometry (PyInt 13) (PyInt 52) [])
    as (_ & _ & _ & _ & _ & _ & H & _).
  - vm_compute. reflexivity.
  - vm_compute. reflexivity.
  - destruct (H (sample_provider (PyDict berlin_response)) "Berlin"
                berlin_response [PyDict berlin_feature] [])
      as (results & r & Hres & Hin & Hloc & _).
    + apply decoded_by_sample.
    + vm_compute. reflexivity.
    + repeat constructor. apply berlin_feature_plain.
    + apply list_elem_of_here.
    + vm_compute. reflexivity.
    + exists results, r. split; [exact Hres|]. split; [exact Hin | exact Hloc].
Defined.

(** C3 (as stated) fails: eleven sources whose latitude is a string raise
    [TypeError], not [ValidationError]; no request is issued. *)
Lemma distance_matrix_cap_type_error :
  length (replicate 11 unreadable_point) = 11%nat /\
  distance_matrix ascii_upper ascii_format (sample_provider PyNone)
    (replicate 11 unreadable_point) [san_francisco] DRIVING KILOMETERS []
  = (Raise (TypeError "'<=' not supported between instances of 'int' and 'str'"),
     []).
Proof. split; vm_compute; reflexivity. Qed.

(** ** The request helper: methods, failures, outcomes *)

Section Helper.

Variable str_upper : string -> string.

(** X1.  A method other than GET and POST (after [upper()]) raises
    [ValidationError] naming the method, and no request is issued. *)
Theorem make_request_unsupported_method (self : Provider) (url method : string)
    (params : option (gmap string pyval)) (data : option pyval)
    (headers : option (gmap string string)) (log : list Request) :
  str_upper method <> "GET" -> str_upper method <> "POST" ->
  _make_request str_upper self url method params data headers log
  = (Raise (ValidationError ("Unsupported HTTP method: " +:+ method)), log).
Proof.
  intros Hget Hpost. unfold _make_request.
  rewrite (proj2 (String.eqb_neq _ _) Hget), (proj2 (String.eqb_neq _ _) Hpost).
  reflexivity.
Qed.

(** The one request that a supported method sends. *)
Lemma make_request_sends (self : Provider) (url method : string)
    (params : option (gmap string pyval)) (data : option pyval)
    (headers : option (gmap string string)) (log : list Request) :
  str_upper method = "GET" \/ str_upper method = "POST" ->
  exists req,
    _make_request str_upper self url method params data headers log
    = send self req log /\
    req_url req = url /\ req_params req = params /\
    req_headers req = headers /\ req_timeout req = timeout self /\
    (str_upper method = "GET" -> req_method req = GET /\ req_json req = None) /\
    (str_upper method = "POST" -> req_method req = POST /\ req_json req = data).
Proof.
  intros Hm. unfold _make_request.
  destruct (String.eqb (str_upper method) "GET") eqn:Hget.
  - apply String.eqb_eq in Hget.
    eexists. split; [reflexivity|]. cbn.
    do 4 (split; [reflexivity|]). split.
    + intros _. now split.
    + intros Hp. rewrite Hget in Hp. discriminate.
  - apply String.eqb_neq in Hget.
    destruct Hm as [Hm|Hm]; [contradiction|].
    rewrite Hm. cbn [String.eqb Ascii.eqb Bool.eqb].
    eexists. split; [reflexivity|]. cbn.
    do 4 (split; [reflexivity|]). split.
    + intros Hg. discriminate.
    + intros _. now split.
Qed.

(** X2.  When the session raises instead of answering, the helper raises
    [APIError]: a timeout is reported with the configured timeout, a
    connection failure and any other request failure with their text; the
    request was issued once.  *)
Theorem make_request_transport_failure (self : Provider) (url method : string)
    (params : option (gmap string pyval)) (data : option pyval)
    (headers : option (gmap string string)) (log : list Request)
    (e : requests_exc) :
  str_upper method = "GET" \/ str_upper method = "POST" ->
  (forall req, session self req = inl e) ->
  exists req,
    _make_request str_upper self url method params data headers log
    = (Raise (APIError
                match e with
                | ExcTimeout _ =>
                    "API request timed out after " +:+ pretty (timeout self)
                    +:+ " seconds"
                | ExcConnectionError s => "Connection error: " +:+ s
                | ExcRequestException s => "Request failed: " +:+ s
                | ExcValueError s => "Failed to parse API response: " +:+ s
                end), (log ++ [req])%list).
Proof.
  intros Hm Hnet.
  destruct (make_request_sends self url method params data headers log Hm)
    as (req & -> & _).
  exists req. unfold send. rewrite Hnet. destruct e; reflexivity.
Qed.

(** X3.  A response below 400 whose body does not decode raises
    [APIError], whatever exception [response.json()] raised. *)
Theorem make_request_undecodable_body (self : Provider) (url method : string)
    (params : option (gmap string pyval)) (data : option pyval)
    (headers : option (gmap string string)) (log : list Request)
    (response : Response) (e : requests_exc) :
  str_upper method = "GET" \/ str_upper method = "POST" ->
  (forall req, session self req = inr response) ->
  status_code response < 400 ->
  json response = inl e ->
  exists msg,
    fst (_make_request str_upper self url method params data headers log)
    = Raise (APIError msg).
Proof.
  intros Hm Hnet Hlt Hjson.
  destruct (make_request_sends self url method params data headers log Hm)
    as (req & -> & _).
  unfold send. rewrite Hnet. cbn [fst]. unfold check_response.
  assert ((status_code response =? 401) = false) as -> by (apply Z.eqb_neq; lia).
  assert ((status_code response =? 403) = false) as -> by (apply Z.eqb_neq; lia).
  assert ((status_code response =? 429) = false) as -> by (apply Z.eqb_neq; lia).
  assert ((400 <=? status_code response) = false) as -> by (apply Z.leb_gt; lia).
  cbn [orb]. rewrite Hjson. destruct e; eexists; reflexivity.
Qed.

Lemma check_response_outcome (self : Provider) (response : Response) :
  match check_response self response with
  | Ok body => status_code response < 400 /\ json response = inr body
  | Raise e => remote_error e
  end.
Proof.
  unfold check_response.
  destruct ((status_code response =? 401) || (status_code response =? 403));
    [exact I|].
  destruct (status_code response =? 429); [exact I|].
  destruct (400 <=? status_code response) eqn:H400; [exact I|].
  apply Z.leb_gt in H400.
  destruct (json response) as [e|body]; [destruct e; exact I | now split].
Qed.

Lemma send_outcome (self : Provider) (req : Request) (log : list Request) :
  snd (send self req log) = (log ++ [req])%list /\
  match fst (send self req log) with
  | Ok _ => True
  | Raise e => remote_error e
  end.
Proof.
  unfold send. cbn [fst snd]. split; [reflexivity|].
  destruct (session self req) as [e|response]; [destruct e; exact I|].
  pose proof (check_response_outcome self response) as H.
  destruct (check_response self response); [exact I | exact H].
Qed.

(** X4.  Whatever the method and the session, the helper either raises
    [ValidationError] without issuing a request, or issues exactly one
    request (to the given URL, with the given parameters and headers and
    the provider's timeout) and then returns a decoded body or raises
    [AuthenticationError], [RateLimitError] or [APIError]; a body is
    returned only for a status below 400. *)
Theorem make_request_outcomes (self : Provider) (url method : string)
    (params : option (gmap string pyval)) (data : option pyval)
    (headers : option (gmap string string)) (log : list Request) :
  let outcome := _make_request str_upper self url method params data headers log in
  (snd outcome = log /\
   exists msg, fst outcome = Raise (ValidationError msg)) \/
  (exists req,
     snd outcome = (log ++ [req])%list /\
     req_url req = url /\ req_params req = params /\
     req_headers req = headers /\ req_timeout req = timeout self /\
     match fst outcome with
     | Ok body =>
         exists response,
           session self req = inr response /\ status_code response < 400 /\
           json response = inr body
     | Raise e => remote_error e
     end).
Proof.
  intros outcome. unfold outcome.
  destruct (String.eqb (str_upper method) "GET") eqn:Hget;
    [|destruct (String.eqb (str_upper method) "POST") eqn:Hpost].
  - right. apply String.eqb_eq in Hget.
    destruct (make_request_sends self url method params data headers log
                (or_introl Hget)) as (req & -> & Hu & Hp & Hh & Ht & _).
    exists req. unfold send. cbn [fst snd]. repeat (split; [assumption || reflexivity|]).
    destruct (session self req) as [e|response]; [destruct e; exact I|].
    pose proof (check_response_outcome self response) as H.
    destruct (check_response self response); [|exact H].
    exists response. now split.
  - right. apply String.eqb_eq in Hpost.
    destruct (make_request_sends self url method params data headers log
                (or_intror Hpost)) as (req & -> & Hu & Hp & Hh & Ht & _).
    exists req. unfold send. cbn [fst snd]. repeat (split; [assumption || reflexivity|]).
    destruct (session self req) as [e|response]; [destruct e; exact I|].
    pose proof (check_response_outcome self response) as H.
    destruct (check_response self response); [|exact H].
    exists response. now split.
  - left. apply String.eqb_neq in Hget, Hpost.
    rewrite (make_request_unsupported_method self url method params data headers
               log Hget Hpost). cbn [fst snd]. eauto.
Qed.

End Helper.

(** ** Exceptions of the dynamic operations *)

Lemma raises_only_bind {A B} (P : exn -> Prop) (c : result A)
    (k : A -> result B) :
  raises_only P c -> (forall a, raises_only P (k a)) ->
  raises_only P (rbind c k).
Proof. destruct c as [a|e]; cbn; auto. Qed.

Lemma raises_only_weaken {A} (P Q : exn -> Prop) (r : result A) :
  (forall e, P e -> Q e) -> raises_only P r -> raises_only Q r.
Proof. destruct r; cbn; auto. Qed.

Lemma raises_only_for_each {A B} (P : exn -> Prop) (body : A -> result B)
    (l : list A) :
  (forall x, raises_only P (body x)) -> raises_only P (for_each body l).
Proof.
  intros Hbody. induction l as [|x l IH]; cbn [for_each]; [exact I|].
  apply raises_only_bind; [apply Hbody|]. intros y.
  apply raises_only_bind; [exact IH|]. intros ys. exact I.
Qed.

Lemma py_get_builtin (v : pyval) (k : string) (default : pyval) :
  raises_only builtin_error (py_get v k default).
Proof. destruct v; exact I. Qed.

Lemma py_contains_builtin (k : string) (v : pyval) :
  raises_only builtin_error (py_contains k v).
Proof. destruct v; exact I. Qed.

Lemma py_getitem_builtin (v : pyval) (k : string) :
  raises_only builtin_error (py_getitem v k).
Proof. destruct v; cbn; try exact I. destruct (d !! k); exact I. Qed.

Lemma py_index_builtin (v : pyval) (i : nat) :
  raises_only builtin_error (py_index v i).
Proof.
  destruct v; cbn; try exact I.
  - destruct (String.get i s); exact I.
  - destruct (l !! i); exact I.
Qed.

Lemma py_len_builtin (v : pyval) : raises_only builtin_error (py_len v).
Proof. destruct v; exact I. Qed.

Lemma py_iter_builtin (v : pyval) : raises_only builtin_error (py_iter v).
Proof. destruct v; exact I. Qed.

Lemma float_of_int_builtin (k : Z) : raises_only builtin_error (float_of_int k).
Proof.
  unfold float_of_int. destruct (binary_normalize 53 1024 k 0 false); exact I.
Qed.

Lemma int_true_divide_builtin (a : Z) (b : positive) :
  raises_only builtin_error (int_true_divide a b).
Proof.
  unfold int_true_divide.
  destruct (f64_div (Z_as_SF a) (S754_finite false b 0)); exact I.
Qed.

Lemma py_truediv_int_builtin (v : pyval) (k : positive) :
  raises_only builtin_error (py_truediv_int v k).
Proof.
  destruct v; cbn [py_truediv_int]; try exact I;
    try apply int_true_divide_builtin.
  apply raises_only_bind; [apply float_of_int_builtin | intros; exact I].
Qed.

Lemma RouteInfo_init_builtin (distance duration : pyval)
    (km mins : option pynum) :
  raises_only builtin_error (RouteInfo_init distance duration km mins).
Proof.
  unfold RouteInfo_init.
  apply raises_only_bind.
  - destruct km; [exact I|]. destruct distance; try exact I;
      (apply raises_only_bind; [apply py_truediv_int_builtin | intros; exact I]).
  - intros x. apply raises_only_bind; [|intros; exact I].
    destruct mins; [exact I|]. destruct duration; try exact I;
      (apply raises_only_bind; [apply py_truediv_int_builtin | intros; exact I]).
Qed.

Ltac builtin_steps :=
  repeat first
    [ exact I
    | apply py_get_builtin | apply py_contains_builtin
    | apply py_getitem_builtin | apply py_index_builtin
    | apply py_len_builtin | apply py_iter_builtin
    | apply RouteInfo_init_builtin
    | apply raises_only_bind; [|intros ?]
    | match goal with
      | |- raises_only _ (if ?b then _ else _) => destruct b
      end ].

Lemma address_of_props_builtin (props : pyval) :
  raises_only builtin_error (address_of_props props).
Proof. unfold address_of_props. builtin_steps. Qed.

Lemma geocode_feature_builtin (feature : pyval) :
  raises_only builtin_error (geocode_feature feature).
Proof.
  unfold geocode_feature, feature_coords, usable_coords, point_of_coords.
  builtin_steps; try apply address_of_props_builtin.
Qed.

Lemma autocomplete_feature_builtin (feature : pyval) :
  raises_only builtin_error (autocomplete_feature feature).
Proof.
  unfold autocomplete_feature, feature_coords, usable_coords, point_of_coords.
  builtin_steps; try apply address_of_props_builtin.
Qed.

Lemma reverse_feature_builtin (feature : pyval) :
  raises_only builtin_error (reverse_feature feature).
Proof. unfold reverse_feature, address_of_props. builtin_steps. Qed.

Lemma over_features_builtin {A} (body : pyval -> result A) (response : pyval) :
  (forall x, raises_only builtin_error (body x)) ->
  raises_only builtin_error (over_features body response).
Proof.
  intros Hbody. unfold over_features. builtin_steps.
  now apply raises_only_for_each.
Qed.

Lemma parse_matrix_builtin (response : pyval) :
  raises_only builtin_error (parse_matrix response).
Proof.
  unfold parse_matrix. builtin_steps.
  apply raises_only_for_each. intros row. unfold matrix_row. builtin_steps.
  apply raises_only_for_each. intros cell. unfold matrix_cell. builtin_steps.
Qed.

Lemma parse_route_errors (response : pyval) :
  raises_only (fun e => remote_error e \/ builtin_error e) (parse_route response).
Proof.
  unfold parse_route.
  apply raises_only_bind.
  - apply (raises_only_weaken builtin_error); [auto|]. builtin_steps.
  - intros found. destruct found; [|left; exact I].
    apply (raises_only_weaken builtin_error); [auto|]. builtin_steps.
Qed.

(** ** Operations and the network *)

Lemma outcome_lift_bind {A B} (r : result A) (k : A -> M B) (log : list Request) :
  (forall a, operation_outcome log (k a log)) ->
  operation_outcome log ((x <~ lift r ;; k x) log).
Proof.
  intros Hk. unfold mbind, lift. destruct r as [a|e]; [apply Hk|].
  left. now split.
Qed.

Lemma outcome_raise {A} (e : exn) (log : list Request) :
  operation_outcome log (@mraise A e log).
Proof. left. now split. Qed.

Section Operations.

Variable str_upper : string -> string.
Variable str_strip : string -> string.
Variable py_format : pyval -> string.

(** The request of an operation followed by the parsing of the body. *)
Lemma outcome_request_parse {A} (self : Provider) (url method : string)
    (params : option (gmap string pyval)) (parse : pyval -> result A)
    (log : list Request) :
  (forall body,
     raises_only (fun e => remote_error e \/ builtin_error e) (parse body)) ->
  operation_outcome log
    ((response <~ _make_request str_upper self url method params None None ;;
      lift (parse response)) log).
Proof.
  intros Hparse. unfold mbind, lift, _make_request, mraise.
  destruct (String.eqb (str_upper method) "GET");
    [|destruct (String.eqb (str_upper method) "POST")].
  - match goal with |- context [send self ?r log] =>
      destruct (send_outcome self r log) as [Hlog Hout];
      destruct (send self r log) as [[body|e] log'] end;
      cbn [fst snd] in *; right; eexists; (split; [exact Hlog|]).
    + apply Hparse.
    + now left.
  - match goal with |- context [send self ?r log] =>
      destruct (send_outcome self r log) as [Hlog Hout];
      destruct (send self r log) as [[body|e] log'] end;
      cbn [fst snd] in *; right; eexists; (split; [exact Hlog|]).
    + apply Hparse.
    + now left.
  - left. now split.
Qed.

Lemma builtin_is_parse_error {A} (r : result A) :
  raises_only builtin_error r ->
  raises_only (fun e => remote_error e \/ builtin_error e) r.
Proof. apply raises_only_weaken. auto. Qed.

(** X5.  Every call of the five operations either fails without issuing a
    request, or issues exactly one request and then returns or raises a
    remote error ([AuthenticationError], [RateLimitError], [APIError]) or
    a built-in error of a malformed body.  So a call that returns has
    issued exactly one request, and [ValidationError] is only ever raised
    before any request. *)
Theorem operations_validate_before_network (self : Provider)
    (log : list Request) :
  (forall query,
     operation_outcome log (geocode str_upper str_strip self query log)) /\
  (forall location,
     operation_outcome log (reverse_geocode str_upper self location log)) /\
  (forall query limit,
     operation_outcome log
       (autocomplete str_upper str_strip self query limit log)) /\
  (forall srcs tgts mode units,
     operation_outcome log
       (distance_matrix str_upper py_format self srcs tgts mode units log)) /\
  (forall source target mode,
     operation_outcome log
       (route str_upper py_format self source target mode log)).
Proof.
  split; [|split; [|split; [|split]]].
  - intros query. unfold geocode.
    destruct (blank_query str_strip query); [apply outcome_raise|].
    apply outcome_request_parse. intros body. apply builtin_is_parse_error.
    apply raises_only_bind; [|intros; exact I].
    apply over_features_builtin, geocode_feature_builtin.
  - intros location. unfold reverse_geocode.
    apply outcome_lift_bind; intros _.
    apply outcome_lift_bind; intros lat.
    apply outcome_lift_bind; intros lon.
    apply outcome_request_parse. intros body. apply builtin_is_parse_error.
    apply over_features_builtin, reverse_feature_builtin.
  - intros query limit. unfold autocomplete.
    destruct (blank_query str_strip query); [apply outcome_raise|].
    destruct ((limit <? 1) || (50 <? limit)); [apply outcome_raise|].
    apply outcome_request_parse. intros body. apply builtin_is_parse_error.
    apply raises_only_bind; [|intros; exact I].
    apply over_features_builtin, autocomplete_feature_builtin.
  - intros srcs tgts mode units. unfold distance_matrix.
    apply outcome_lift_bind; intros _.
    apply outcome_lift_bind; intros _.
    destruct ((10 <? Z.of_nat (length srcs)) || (10 <? Z.of_nat (length tgts)));
      [apply outcome_raise|].
    apply outcome_lift_bind; intros sources_str.
    apply outcome_lift_bind; intros targets_str.
    match goal with
    | |- operation_outcome log (mbind ?c ?k log) =>
        pose proof (outcome_request_parse self (BASE_URL +:+ "/routematrix") "GET"
                      (Some ({[ "sources" := PyStr sources_str;
                                "targets" := PyStr targets_str;
                                "apiKey" := PyStr (api_key self) ]}
                             : gmap string pyval))
                      (fun body =>
                         grids <- parse_matrix body ;;
                         Ok {| distances := fst grids; durations := snd grids;
                               unit_label := "metric"; sources := Some srcs;
                               targets := Some tgts |}) log) as H
    end.
    assert (Hp : forall body,
               raises_only (fun e => remote_error e \/ builtin_error e)
                 (grids <- parse_matrix body ;;
                  Ok {| distances := fst grids; durations := snd grids;
                        unit_label := "metric"; sources := Some srcs;
                        targets := Some tgts |})).
    { intros body. apply builtin_is_parse_error.
      apply raises_only_bind; [apply parse_matrix_builtin | intros; exact I]. }
    specialize (H Hp). unfold mbind, lift, mret in *.
    destruct (_make_request _ _ _ _ _ _ _ log) as [[body|e] log'];
      [|exact H].
    destruct (parse_matrix body); exact H.
  - intros source target mode. unfold route.
    apply outcome_lift_bind; intros _.
    apply outcome_lift_bind; intros _.
    apply outcome_lift_bind; intros from.
    apply outcome_lift_bind; intros to.
    apply outcome_request_parse. intros body. apply parse_route_errors.
Qed.

End Operations.

(** ** The requests that the operations issue *)

Lemma log_not_extended (log : list Request) (req : Request) :
  log <> (log ++ [req])%list.
Proof.
  intros H. apply (f_equal length) in H. rewrite length_app in H.
  cbn in H. lia.
Qed.

Lemma logged_lift_bind {A B} (r : result A) (k : A -> M B)
    (log : list Request) (req : Request) (P : Prop) :
  (forall a, snd (k a log) = (log ++ [req])%list -> P) ->
  snd ((x <~ lift r ;; k x) log) = (log ++ [req])%list -> P.
Proof.
  intros Hk. unfold mbind, lift. destruct r as [a|e]; [apply Hk|].
  cbn [snd]. intros H. destruct (log_not_extended log req H).
Qed.

Lemma logged_raise {A} (e : exn) (log : list Request) (req : Request)
    (P : Prop) :
  snd (@mraise A e log) = (log ++ [req])%list -> P.
Proof. cbn. intros H. destruct (log_not_extended log req H). Qed.

Section Requests.

Variable str_upper : string -> string.
Variable str_strip : string -> string.
Variable py_format : pyval -> string.
Hypothesis upper_GET : str_upper "GET" = "GET".

(** The request of an operation is the one on the log afterwards. *)
Lemma logged_request {A} (self : Provider) (url : string)
    (params : gmap string pyval) (k : pyval -> M A) (log : list Request)
    (req : Request) :
  (forall body l, snd (k body l) = l) ->
  snd ((response <~ _make_request str_upper self url "GET" (Some params) None None ;;
        k response) log) = (log ++ [req])%list ->
  req = {| req_method := GET; req_url := url; req_params := Some params;
           req_json := None; req_headers := None;
           req_timeout := timeout self |}.
Proof.
  intros Hk. unfold mbind, _make_request. rewrite upper_GET.
  cbn [String.eqb Ascii.eqb Bool.eqb]. unfold send.
  match goal with
  | |- context [session self ?q] =>
      destruct (session self q) as [e|response];
        [|destruct (check_response self response) as [body|e]];
        rewrite ?Hk; cbn [snd]; intros H;
        apply app_inj_tail in H as [_ H]; now symmetry
  end.
Qed.

Lemma lift_keeps_log {A} (r : result A) (l : list Request) :
  snd (lift r l) = l.
Proof. reflexivity. Qed.

Ltac adapter_fields :=
  unfold adapter_request; cbn [req_method req_url req_json req_headers
                               req_timeout req_params];
  repeat (split; [reflexivity|]);
  eexists; split; [reflexivity|]; by simplify_map_eq.

(** X6.  With ["GET".upper() == "GET"], every request that one of the five
    operations issues is a GET to a URL below the vendor's base URL, with
    no body and no headers, the provider's timeout, and the provider's key
    under ["apiKey"]. *)
Theorem operations_issue_adapter_requests (self : Provider)
    (log : list Request) (req : Request) :
  (forall query,
     snd (geocode str_upper str_strip self query log) = (log ++ [req])%list ->
     adapter_request self req) /\
  (forall location,
     snd (reverse_geocode str_upper self location log) = (log ++ [req])%list ->
     adapter_request self req) /\
  (forall query limit,
     snd (autocomplete str_upper str_strip self query limit log)
     = (log ++ [req])%list ->
     adapter_request self req) /\
  (forall srcs tgts mode units,
     snd (distance_matrix str_upper py_format self srcs tgts mode units log)
     = (log ++ [req])%list ->
     adapter_request self req) /\
  (forall source target mode,
     snd (route str_upper py_format self source target mode log)
     = (log ++ [req])%list ->
     adapter_request self req).
Proof.
  split; [|split; [|split; [|split]]].
  - intros query. unfold geocode.
    destruct (blank_query str_strip query); [apply logged_raise|].
    intros H. apply logged_request in H; [|intros; apply lift_keeps_log].
    subst req. adapter_fields.
  - intros location. unfold reverse_geocode.
    apply logged_lift_bind; intros _.
    apply logged_lift_bind; intros lat.
    apply logged_lift_bind; intros lon.
    intros H. apply logged_request in H; [|intros; apply lift_keeps_log].
    subst req. adapter_fields.
  - intros query limit. unfold autocomplete.
    destruct (blank_query str_strip query); [apply logged_raise|].
    destruct ((limit <? 1) || (50 <? limit)); [apply logged_raise|].
    intros H. apply logged_request in H; [|intros; apply lift_keeps_log].
    subst req. adapter_fields.
  - intros srcs tgts mode units. unfold distance_matrix.
    apply logged_lift_bind; intros _.
    apply logged_lift_bind; intros _.
    destruct ((10 <? Z.of_nat (length srcs)) || (10 <? Z.of_nat (length tgts)));
      [apply logged_raise|].
    apply logged_lift_bind; intros sources_str.
    apply logged_lift_bind; intros targets_str.
    intros H. apply logged_request in H.
    + subst req. adapter_fields.
    + intros body l. unfold mbind, lift, mret.
      destruct (parse_matrix body); reflexivity.
  - intros source target mode. unfold route.
    apply logged_lift_bind; intros _.
    apply logged_lift_bind; intros _.
    apply logged_lift_bind; intros from.
    apply logged_lift_bind; intros to.
    intros H. apply logged_request in H; [|intros; apply lift_keeps_log].
    subst req. adapter_fields.
Qed.

(** X7.  A blank query is refused before any request by [geocode] and
    [autocomplete]; with a non-blank query [autocomplete] refuses a limit
    outside 1..50 before any request; otherwise both issue one request that
    carries the query under ["text"] and, for [autocomplete], the limit
    under ["limit"]. *)
Theorem search_input_validation (self : Provider) (log : list Request)
    (query : string) (limit : Z) :
  (blank_query str_strip query = true ->
     geocode str_upper str_strip self query log
     = (Raise (ValidationError "Query must be a non-empty string"), log) /\
     autocomplete str_upper str_strip self query limit log
     = (Raise (ValidationError "Query must be a non-empty string"), log)) /\
  (blank_query str_strip query = false -> limit < 1 \/ 50 < limit ->
     autocomplete str_upper str_strip self query limit log
     = (Raise (ValidationError "Limit must be between 1 and 50"), log)) /\
  (blank_query str_strip query = false ->
     exists req params,
       snd (geocode str_upper str_strip self query log) = (log ++ [req])%list /\
       req_params req = Some params /\
       params !! "text" = Some (PyStr query)) /\
  (blank_query str_strip query = false -> 1 <= limit <= 50 ->
     exists req params,
       snd (autocomplete str_upper str_strip self query limit log)
       = (log ++ [req])%list /\
       req_params req = Some params /\
       params !! "text" = Some (PyStr query) /\
       params !! "limit" = Some (PyInt limit)).
Proof.
  split; [|split; [|split]].
  - intros Hb. unfold geocode, autocomplete. rewrite Hb. now split.
  - intros Hb Hl. unfold autocomplete. rewrite Hb.
    replace ((limit <? 1) || (50 <? limit)) with true; [reflexivity|].
    symmetry. apply orb_true_iff.
    destruct Hl; [left|right]; apply Z.ltb_lt; lia.
  - intros Hb. unfold geocode. rewrite Hb.
    unfold mbind, lift, _make_request. rewrite upper_GET.
    cbn [String.eqb Ascii.eqb Bool.eqb]. unfold send.
    eexists; eexists. split.
    + match goal with
      | |- context [session self ?q] =>
          destruct (session self q) as [e|response];
            [|destruct (check_response self response) as [body|e]];
            reflexivity
      end.
    + split; [reflexivity|]. by simplify_map_eq.
  - intros Hb [Hlo Hhi]. unfold autocomplete. rewrite Hb.
    replace ((limit <? 1) || (50 <? limit)) with false; cycle 1.
    { symmetry. apply orb_false_iff. split; apply Z.ltb_ge; lia. }
    unfold mbind, lift, _make_request. rewrite upper_GET.
    cbn [String.eqb Ascii.eqb Bool.eqb]. unfold send.
    eexists; eexists. split.
    + match goal with
      | |- context [session self ?q] =>
          destruct (session self q) as [e|response];
            [|destruct (check_response self response) as [body|e]];
            reflexivity
      end.
    + split; [reflexivity|]. split; by simplify_map_eq.
Qed.

End Requests.

(** ** Validation of locations and of lists of locations *)

(** Whether a location passes does not depend on the name it is validated
    under; the name only shapes the message. *)
Lemma validate_location_any_name (o : pyobj) (n1 n2 : string) :
  _validate_location o n1 = Ok tt -> _validate_location o n2 = Ok tt.
Proof.
  destruct (location_coords o) as [[lat lon]|] eqn:Hc.
  - rewrite !(validate_location_coords _ _ _ _ Hc).
    destruct (py_between (-90) lat 90) as [[]|]; cbn [rbind negb];
      try discriminate.
    destruct (py_between (-180) lon 180) as [[]|]; cbn [rbind negb];
      try discriminate.
    reflexivity.
  - destruct (validate_location_no_coords o n1 Hc) as [msg ->]. discriminate.
Qed.

Lemma validate_from_ok (name : string) (locations : list pyobj) (idx : nat) :
  validate_from name idx locations = Ok tt <-> Forall valid_location locations.
Proof.
  revert idx. induction locations as [|o l IH]; intros idx; cbn [validate_from].
  - split; [constructor | reflexivity].
  - destruct (_validate_location o (name +:+ "[" +:+ pretty idx +:+ "]"))
      as [[]|e] eqn:Ho.
    + rewrite IH. split.
      * intros Hl. constructor; [|exact Hl].
        exact (validate_location_any_name _ _ _ Ho).
      * intros Hl. now inversion Hl.
    + split.
      * destruct e; discriminate.
      * intros Hl. inversion Hl as [|? ? Hv _]; subst.
        apply (validate_location_any_name _ _ (name +:+ "[" +:+ pretty idx +:+ "]"))
          in Hv. congruence.
Qed.

Lemma validate_from_first_failure (name : string) (pre : list pyobj)
    (o : pyobj) (rest : list pyobj) (e : exn) (idx : nat) :
  Forall valid_location pre ->
  _validate_location o (indexed_name name (idx + length pre)) = Raise e ->
  validate_from name idx (pre ++ o :: rest) = Raise e.
Proof.
  revert idx. induction pre as [|p pre IH]; intros idx Hpre Ho.
  - cbn [app validate_from]. cbn [length] in Ho.
    rewrite Nat.add_0_r in Ho. unfold indexed_name in Ho. rewrite Ho.
    destruct e; reflexivity.
  - inversion Hpre as [|? ? Hp Hpre']; subst.
    cbn [app validate_from].
    rewrite (validate_location_any_name _ _ _ Hp).
    apply IH; [exact Hpre'|].
    cbn [length] in Ho. now rewrite Nat.add_succ_comm.
Qed.

(** X8.  List validation refuses the empty list; a non-empty list passes
    exactly when every element passes point validation; and when the
    elements before position [i] pass and element [i] fails, the list
    fails with that element's exception, raised under the name
    [name[i]]. *)
Theorem validate_locations_list_spec (name : string) :
  _validate_locations_list [] name
  = Raise (ValidationError (name +:+ " must not be empty")) /\
  (forall locations,
     locations <> [] ->
     (_validate_locations_list locations name = Ok tt
      <-> Forall valid_location locations)) /\
  (forall pre o rest e,
     Forall valid_location pre ->
     _validate_location o (indexed_name name (length pre)) = Raise e ->
     _validate_locations_list (pre ++ o :: rest) name = Raise e).
Proof.
  split; [reflexivity|]. split.
  - intros locations Hne. destruct locations as [|o l]; [contradiction|].
    apply validate_from_ok.
  - intros pre o rest e Hpre Ho.
    unfold _validate_locations_list.
    destruct (pre ++ o :: rest)%list eqn:Hl; [destruct pre; discriminate|].
    rewrite <- Hl. now apply validate_from_first_failure.
Qed.

Lemma point_dict_coords (p : GeoPoint) :
  location_coords (ObjValue (PyDict (GeoPoint_to_dict p)))
  = Some (latitude p, longitude p).
Proof.
  unfold location_coords, GeoPoint_to_dict.
  rewrite lookup_insert_eq.
  rewrite lookup_insert_ne by discriminate. now rewrite lookup_singleton_eq.
Qed.

(** X9.  The mapping that [GeoPoint.to_dict] gives is validated exactly
    like the point itself: same outcome, same message. *)
Theorem validate_location_to_dict (p : GeoPoint) (name : string) :
  _validate_location (ObjValue (PyDict (GeoPoint_to_dict p))) name
  = _validate_location (ObjGeoPoint p) name.
Proof.
  rewrite (validate_location_coords _ name _ _ (point_dict_coords p)).
  now rewrite (validate_location_coords (ObjGeoPoint p) name _ _ eq_refl).
Qed.

(** ** Results of the search operations *)

Section Results.

Variable str_upper : string -> string.
Variable str_strip : string -> string.
Variable py_format : pyval -> string.
Hypothesis upper_GET : str_upper "GET" = "GET".

(** X10.  On a decoded response whose features are well formed, [geocode]
    and [autocomplete] return one result for each feature that has at least
    two coordinates, in the order of the response, and silently skip the
    others; the address of each result is the one its feature's properties
    describe. *)
Theorem search_keeps_order (self : Provider) (d : gmap string pyval)
    (features : list pyval) (query : string) (limit : Z) (log : list Request) :
  decoded_response self (PyDict d) ->
  d !! "features" = Some (PyList features) ->
  Forall plain_feature features ->
  blank_query str_strip query = false ->
  (exists results,
     fst (geocode str_upper str_strip self query log) = Ok results /\
     raw_data <$> results = List.filter has_pair features /\
     Forall (fun r => address r = feature_address (raw_data r)) results) /\
  (1 <= limit <= 50 ->
   exists results,
     fst (autocomplete str_upper str_strip self query limit log) = Ok results /\
     AutocompleteResult.raw_data <$> results = List.filter has_pair features /\
     Forall (fun r => AutocompleteResult.address r
                      = feature_address (AutocompleteResult.raw_data r)) results).
Proof.
  intros Hdec Hd Hplain Hq. split.
  - unfold geocode. rewrite Hq. unfold mbind, lift.
    match goal with
    | |- context [_make_request _ _ ?u _ ?p ?a ?h ?l] =>
        destruct (make_request_decoded str_upper upper_GET self u p a h _ l Hdec)
          as [req ->]
    end.
    cbn [fst]. rewrite (over_features_list _ d features Hd).
    destruct (for_each_keeps_order geocode_feature raw_data address features)
      as (found & -> & Hraw & Haddr).
    { eapply Forall_impl; [exact Hplain|]. apply geocode_feature_plain. }
    cbn [rbind]. eauto.
  - intros [Hlo Hhi]. unfold autocomplete. rewrite Hq.
    replace ((limit <? 1) || (50 <? limit)) with false; cycle 1.
    { symmetry. apply orb_false_iff. split; apply Z.ltb_ge; lia. }
    unfold mbind, lift.
    match goal with
    | |- context [_make_request _ _ ?u _ ?p ?a ?h ?l] =>
        destruct (make_request_decoded str_upper upper_GET self u p a h _ l Hdec)
          as [req ->]
    end.
    cbn [fst]. rewrite (over_features_list _ d features Hd).
    destruct (for_each_keeps_order autocomplete_feature
                AutocompleteResult.raw_data AutocompleteResult.address features)
      as (found & -> & Hraw & Haddr).
    { eapply Forall_impl; [exact Hplain|]. apply autocomplete_feature_plain. }
    cbn [rbind]. eauto.
Qed.

(** X11.  On a decoded response whose features are mappings with mapping
    (or absent) properties, [reverse_geocode] of a valid point returns one
    address per feature, in the order of the response, each made of the
    feature's properties, absent entries being [None]; no feature is
    skipped. *)
Theorem reverse_geocode_addresses (self : Provider) (d : gmap string pyval)
    (features : list pyval) (p : GeoPoint) (log : list Request) :
  decoded_response self (PyDict d) ->
  d !! "features" = Some (PyList features) ->
  Forall has_props features ->
  valid_location (ObjGeoPoint p) ->
  fst (reverse_geocode str_upper self (ObjGeoPoint p) log)
  = Ok (feature_address <$> features).
Proof.
  intros Hdec Hd Hprops Hp. unfold reverse_geocode, mbind, lift.
  rewrite Hp. cbn [attr_latitude attr_longitude].
  match goal with
  | |- context [_make_request _ _ ?u _ ?p ?a ?h ?l] =>
      destruct (make_request_decoded str_upper upper_GET self u p a h _ l Hdec)
        as [req ->]
  end.
  cbn [fst]. rewrite (over_features_list _ d features Hd).
  apply for_each_total.
  eapply Forall_impl; [exact Hprops|]. apply reverse_feature_address.
Qed.

(** X12.  [route] reads the distance and the time of the first feature
    only: when both are numbers that divide, the result holds the distance
    divided by 1000 and the time divided by 60, whatever features follow. *)
Theorem route_first_feature (self : Provider) (ps pt : GeoPoint)
    (mode : TravelMode) (d fd props : gmap string pyval) (rest : list pyval)
    (vd vt : pyval) (qd qt : spec_float) (log : list Request) :
  valid_location (ObjGeoPoint ps) -> valid_location (ObjGeoPoint pt) ->
  decoded_response self (PyDict d) ->
  d !! "features" = Some (PyList (PyDict fd :: rest)) ->
  feature_props fd = Some props ->
  props !! "distance" = Some vd -> props !! "time" = Some vt ->
  vd <> PyNone -> vt <> PyNone ->
  py_truediv_int vd 1000 = Ok qd -> py_truediv_int vt 60 = Ok qt ->
  fst (route str_upper py_format self (ObjGeoPoint ps) (ObjGeoPoint pt) mode log)
  = Ok {| distance_km := PFloat qd; duration_minutes := PFloat qt |}.
Proof.
  intros Hs Ht Hdec Hd Hp Hvd Hvt Hnd Hnt Hqd Hqt.
  destruct (route_decoded str_upper py_format upper_GET self ps pt mode _ log
              (validate_location_any_name _ _ "source" Hs)
              (validate_location_any_name _ _ "target" Ht) Hdec) as [req ->].
  cbn [fst]. rewrite (parse_route_first d fd props rest Hd Hp).
  rewrite Hvd, Hvt. cbn [default_or].
  now apply route_info_of_props.
Qed.

Lemma format_mapping_raises (d : gmap string pyval) :
  format_location py_format (ObjValue (PyDict d))
  = Raise (AttributeError "'dict' object has no attribute 'latitude'").
Proof. reflexivity. Qed.

(** X13.  A mapping passes point validation but cannot be used as a
    location: [reverse_geocode], [route] and [distance_matrix] given a
    valid mapping raise [AttributeError] when they read its [latitude]
    attribute, and no request is issued. *)
Theorem mapping_locations_raise (self : Provider) (d : gmap string pyval)
    (log : list Request) :
  valid_location (ObjValue (PyDict d)) ->
  let err := AttributeError "'dict' object has no attribute 'latitude'" in
  reverse_geocode str_upper self (ObjValue (PyDict d)) log = (Raise err, log) /\
  (forall target mode,
     valid_location target ->
     route str_upper py_format self (ObjValue (PyDict d)) target mode log
     = (Raise err, log)) /\
  (forall rest tgts mode units,
     _validate_locations_list (ObjValue (PyDict d) :: rest) "sources" = Ok tt ->
     _validate_locations_list tgts "targets" = Ok tt ->
     (length (ObjValue (PyDict d) :: rest) <= 10)%nat ->
     (length tgts <= 10)%nat ->
     distance_matrix str_upper py_format self (ObjValue (PyDict d) :: rest)
       tgts mode units log = (Raise err, log)).
Proof.
  intros Hv err. split; [|split].
  - unfold reverse_geocode, mbind, lift.
    rewrite (validate_location_any_name _ _ "location" Hv). reflexivity.
  - intros target mode Ht. unfold route, mbind, lift.
    rewrite (validate_location_any_name _ _ "source" Hv).
    rewrite (validate_location_any_name _ _ "target" Ht). reflexivity.
  - intros rest tgts mode units Hs Ht Hls Hlt.
    unfold distance_matrix, mbind, lift. rewrite Hs, Ht.
    replace (10 <? Z.of_nat (length (ObjValue (PyDict d) :: rest))) with false
      by (symmetry; apply Z.ltb_ge; lia).
    replace (10 <? Z.of_nat (length tgts)) with false
      by (symmetry; apply Z.ltb_ge; lia).
    reflexivity.
Qed.

End Results.

(** ** Serialized addresses *)

Lemma address_items_nodup (a : Address) : NoDup (Address_items a).*1.
Proof.
  unfold Address_items. cbn [fmap list_fmap fst].
  by apply (bool_decide_unpack _).
Qed.

Lemma address_kept_nodup (a : Address) :
  NoDup (filter (fun kv => is_none kv.2 = false) (Address_items a)).*1.
Proof.
  eapply sublist_NoDup; [apply (address_items_nodup a)|].
  apply fmap_sublist, sublist_filter.
Qed.

(** X14.  [Address.to_dict] holds exactly the fields that are not [None],
    each under its field name with its value. *)
Theorem address_to_dict_lookup (a : Address) (k : string) (v : pyval) :
  Address_to_dict a !! k = Some v
  <-> (k, v) ∈ Address_items a /\ v <> PyNone.
Proof.
  unfold Address_to_dict.
  rewrite <- (elem_of_list_to_map _ _ _ (address_kept_nodup a)).
  rewrite list_elem_of_filter. cbn [snd].
  split; intros [H1 H2]; split; try assumption.
  - intros ->. discriminate.
  - destruct v; try reflexivity. contradiction.
Qed.

Lemma address_to_dict_field (a : Address) (k : string) (v : pyval) :
  (k, v) ∈ Address_items a ->
  Address_to_dict a !! k = if is_none v then None else Some v.
Proof.
  intros Hin. destruct (is_none v) eqn:Hv.
  - destruct (Address_to_dict a !! k) as [w|] eqn:Hw; [|reflexivity].
    apply address_to_dict_lookup in Hw as [Hw Hnone].
    pose proof (address_items_nodup a) as Hnd.
    apply (elem_of_list_to_map (M := gmap string) _ _ _ Hnd) in Hw, Hin.
    rewrite Hw in Hin. injection Hin as ->.
    destruct v; try discriminate. contradiction.
  - apply address_to_dict_lookup. split; [exact Hin|].
    intros ->. discriminate.
Qed.

(** X15.  The address that the adapter builds from the properties of a
    feature serializes back to those properties: [to_dict] holds, under
    each field name, the value of the corresponding wire name, and drops
    the entries that are absent or null. *)
Theorem address_round_trip (props : gmap string pyval) (a : Address)
    (k wire : string) :
  address_of_props (PyDict props) = Ok a ->
  (k, wire) ∈ wire_names ->
  Address_to_dict a !! k
  = match props !! wire with
    | Some v => if is_none v then None else Some v
    | None => None
    end.
Proof.
  intros [= <-] Hk.
  assert (Hin : (k, default_or (props !! wire) PyNone)
                ∈ Address_items
                    {| street := default_or (props !! "street") PyNone;
                       house_number := default_or (props !! "housenumber") PyNone;
                       city := default_or (props !! "city") PyNone;
                       postcode := default_or (props !! "postcode") PyNone;
                       country := default_or (props !! "country") PyNone;
                       country_code := default_or (props !! "country_code") PyNone;
                       state := default_or (props !! "state") PyNone;
                       formatted_address := default_or (props !! "formatted") PyNone |}).
  { unfold wire_names in Hk. unfold Address_items.
    cbn [street house_number city postcode country country_code state
         formatted_address].
    repeat (apply elem_of_cons in Hk as [[= -> ->] | Hk];
            [repeat first [apply list_elem_of_here | apply list_elem_of_further]|]).
    inversion Hk. }
  rewrite (address_to_dict_field _ _ _ Hin).
  destruct (props !! wire) as [v|]; reflexivity.
Qed.

(** X16.  [Address.to_query_params] holds, under the keys [street],
    [housenumber], [city], [postcode] and [country], exactly the
    corresponding fields that are truthy (neither [None] nor empty); it
    never holds another key, so country code, state and formatted address
    are never sent. *)
Theorem address_to_query_params_lookup (a : Address) :
  let params := Address_to_query_params a in
  params !! "street" = (if py_truthy (street a) then Some (street a) else None) /\
  params !! "housenumber"
  = (if py_truthy (house_number a) then Some (house_number a) else None) /\
  params !! "city" = (if py_truthy (city a) then Some (city a) else None) /\
  params !! "postcode"
  = (if py_truthy (postcode a) then Some (postcode a) else None) /\
  params !! "country"
  = (if py_truthy (country a) then Some (country a) else None) /\
  (forall k, k ∉ query_param_names -> params !! k = None).
Proof.
  intros params. unfold params, Address_to_query_params, set_if_truthy.
  destruct (py_truthy (street a)), (py_truthy (house_number a)),
    (py_truthy (city a)), (py_truthy (postcode a)), (py_truthy (country a));
    (split; [|split; [|split; [|split; [|split]]]]);
    try (by simplify_map_eq);
    intros k Hk; unfold query_param_names in Hk;
    rewrite !not_elem_of_cons in Hk;
    destruct Hk as (H1 & H2 & H3 & H4 & H5 & _);
    rewrite ?lookup_insert_ne by congruence; apply lookup_empty.
Qed.

(** ** Size of the truncation *)

Lemma Qtrunc_bounds (q : Q) :
  (Qabs (inject_Z (Qtrunc q)) <= Qabs q)%Q /\
  (Qabs (q - inject_Z (Qtrunc q)) < 1)%Q.
Proof.
  destruct q as [n d]. unfold Qtrunc, Qle, Qlt, Qabs, Qminus, Qplus, Qopp, inject_Z.
  cbn [Qnum Qden].
  pose proof (Z.quot_rem' n (Zpos d)) as Hqr.
  pose proof (Z.rem_bound_abs n (Zpos d) ltac:(lia)) as Hrem.
  pose proof (Z.rem_sign_nz n (Zpos d)) as Hsign.
  pose proof (Z.quot_abs n (Zpos d) ltac:(lia)) as Hqa.
  pose proof (Z.mul_quot_le (Z.abs n) (Zpos d) ltac:(lia) ltac:(lia)) as Hle.
  split.
  - change (Z.abs (Z.pos d)) with (Z.pos d) in *. rewrite <- Hqa. lia.
  - rewrite Pos.mul_1_r.
    replace (n * 1 + - (n ÷ Zpos d) * Zpos d) with (Z.rem n (Zpos d)) by lia.
    change (Z.abs (Z.pos d)) with (Z.pos d) in *. lia.
Qed.

(** X17.  An accessor of [RouteInfo] never overstates: when the product
    [distance_km * 1000] (resp. [duration_minutes * 60]) is finite, the
    integer returned is no larger in magnitude than the product and
    differs from it by less than 1. *)
Theorem route_info_accessors_bounds (r : RouteInfo) :
  (forall q, RouteInfo_meters_value r = Some q ->
     exists m, RouteInfo_distance r = Ok m /\
               (Qabs (inject_Z m) <= Qabs q)%Q /\
               (Qabs (q - inject_Z m) < 1)%Q) /\
  (forall q, RouteInfo_seconds_value r = Some q ->
     exists s, RouteInfo_duration r = Ok s /\
               (Qabs (inject_Z s) <= Qabs q)%Q /\
               (Qabs (q - inject_Z s) < 1)%Q).
Proof.
  unfold RouteInfo_meters_value, RouteInfo_seconds_value,
    RouteInfo_distance, RouteInfo_duration.
  pose proof (int_of_product (distance_km r) 1000 eq_refl) as Hd.
  pose proof (int_of_product (duration_minutes r) 60 eq_refl) as Ht.
  destruct (num_mul_int (distance_km r) 1000) as [pd|]; [|contradiction].
  destruct (num_mul_int (duration_minutes r) 60) as [pt|]; [|contradiction].
  destruct Hd as [Hd _], Ht as [Ht _].
  split; intros q Hq; exists (Qtrunc q);
    (split; [auto | apply Qtrunc_bounds]).
Qed.

(** ** Messages of point validation *)

(** X18.  Point validation names what is wrong, latitude first: a value
    that is no [GeoPoint] and no mapping, a mapping without both keys, a
    latitude outside [[-90, 90]], and, the latitude being in range, a
    longitude outside [[-180, 180]] each have their own message, prefixed
    with the name of the argument. *)
Theorem validate_location_messages (name : string) :
  (forall v,
     (forall d, v <> PyDict d) ->
     _validate_location (ObjValue v) name
     = Raise (ValidationError
                (name +:+ " must be a GeoPoint or dict with latitude and longitude"))) /\
  (forall d,
     d !! "latitude" = None \/ d !! "longitude" = None ->
     _validate_location (ObjValue (PyDict d)) name
     = Raise (ValidationError
                (name +:+ " must have 'latitude' and 'longitude' keys"))) /\
  (forall o lat lon L G,
     location_coords o = Some (lat, lon) ->
     val_value lat = Some L -> val_value lon = Some G ->
     ((L < -90)%Q \/ (90 < L)%Q ->
        _validate_location o name
        = Raise (ValidationError (name +:+ " latitude must be between -90 and 90"))) /\
     ((-90 <= L)%Q /\ (L <= 90)%Q -> (G < -180)%Q \/ (180 < G)%Q ->
        _validate_location o name
        = Raise (ValidationError
                   (name +:+ " longitude must be between -180 and 180")))).
Proof.
  split; [|split].
  - intros v Hv. destruct v; try reflexivity. destruct (Hv d eq_refl).
  - intros d Hd. unfold _validate_location.
    destruct Hd as [-> | ->]; [reflexivity|].
    destruct (d !! "latitude"); reflexivity.
  - intros o lat lon L G Hc HL HG.
    rewrite (validate_location_coords _ _ _ _ Hc). split.
    + intros Hout.
      now rewrite (py_between_outside (-90) 90 lat L HL Hout).
    + intros [H1 H2] Hout.
      rewrite (py_between_inside (-90) 90 lat L HL H1 H2). cbn [rbind negb].
      now rewrite (py_between_outside (-180) 180 lon G HG Hout).
Qed.

Section Failures.

Variable str_upper : string -> string.
Variable str_strip : string -> string.
Variable py_format : pyval -> string.

(** X19.  [distance_matrix] rejects in a fixed order, before any request:
    the sources are validated first, then the targets, and only then the
    cap of 10 is checked.  So empty sources are reported as such whatever
    the targets, empty targets once the sources pass, and the cap once
    both lists pass. *)
Theorem distance_matrix_rejections (self : Provider) (srcs tgts : list pyobj)
    (mode : TravelMode) (units : DistanceUnit) (log : list Request) :
  let outcome :=
    distance_matrix str_upper py_format self srcs tgts mode units log in
  (forall e, _validate_locations_list srcs "sources" = Raise e ->
     outcome = (Raise e, log)) /\
  (srcs = [] ->
     outcome = (Raise (ValidationError "sources must not be empty"), log)) /\
  (_validate_locations_list srcs "sources" = Ok tt ->
   forall e, _validate_locations_list tgts "targets" = Raise e ->
     outcome = (Raise e, log)) /\
  (_validate_locations_list srcs "sources" = Ok tt -> tgts = [] ->
     outcome = (Raise (ValidationError "targets must not be empty"), log)) /\
  (_validate_locations_list srcs "sources" = Ok tt ->
   _validate_locations_list tgts "targets" = Ok tt ->
   (10 < length srcs)%nat \/ (10 < length tgts)%nat ->
     outcome
     = (Raise (ValidationError
                 "Maximum 10 sources and 10 targets are supported per request"),
        log)).
Proof.
  intros outcome. unfold outcome, distance_matrix, mbind, lift, mraise.
  split; [|split; [|split; [|split]]].
  - intros e ->. reflexivity.
  - intros ->. reflexivity.
  - intros -> e ->. reflexivity.
  - intros -> ->. reflexivity.
  - intros -> -> Hlen.
    replace ((10 <? Z.of_nat (length srcs)) || (10 <? Z.of_nat (length tgts)))
      with true; [reflexivity|].
    symmetry. apply orb_true_iff.
    destruct Hlen; [left|right]; apply Z.ltb_lt; lia.
Qed.


End Failures.

(** ** The further theorems at sample calls *)

Lemma make_request_unsupported_method_witness :
  _make_request ascii_upper (sample_provider PyNone) "https://example.org"
    "put" None None None []
  = (Raise (ValidationError "Unsupported HTTP method: put"), []).
Proof.
  apply (make_request_unsupported_method ascii_upper (sample_provider PyNone)
           "https://example.org" "put" None None None []);
    vm_compute; discriminate.
Defined.

Lemma make_request_transport_failure_witness :
  exists req,
    _make_request ascii_upper timing_out_provider "https://example.org" "GET"
      None None None []
    = (Raise (APIError "API request timed out after 10 seconds"), [req]).
Proof.
  destruct (make_request_transport_failure ascii_upper timing_out_provider
              "https://example.org" "GET" None None None []
              (ExcTimeout "timed out")) as [req Hreq].
  - left. reflexivity.
  - intros req. reflexivity.
  - exists req. exact Hreq.
Defined.

Lemma make_request_undecodable_body_witness :
  exists msg,
    fst (_make_request ascii_upper garbled_provider "https://example.org" "post"
           None None None []) = Raise (APIError msg).
Proof.
  apply (make_request_undecodable_body ascii_upper garbled_provider
           "https://example.org" "post" None None None [] garbled_page
           (ExcValueError "Expecting value")).
  - right. reflexivity.
  - intros req. reflexivity.
  - vm_compute. reflexivity.
  - reflexivity.
Defined.

Lemma operations_issue_adapter_requests_witness :
  exists req,
    snd (geocode ascii_upper ascii_strip (sample_provider (PyDict no_features))
           "Berlin" []) = [req] /\
    adapter_request (sample_provider (PyDict no_features)) req.
Proof.
  eexists. split; [vm_compute; reflexivity|].
  apply (proj1 (operations_issue_adapter_requests ascii_upper ascii_strip
                  ascii_format eq_refl (sample_provider (PyDict no_features))
                  [] _) "Berlin").
  vm_compute. reflexivity.
Defined.

Lemma search_input_validation_witness :
  geocode ascii_upper ascii_strip (sample_provider PyNone) "   " []
  = (Raise (ValidationError "Query must be a non-empty string"), []) /\
  autocomplete ascii_upper ascii_strip (sample_provider PyNone) "Ber" 51 []
  = (Raise (ValidationError "Limit must be between 1 and 50"), []).
Proof.
  split.
  - apply (search_input_validation ascii_upper ascii_strip eq_refl
             (sample_provider PyNone) [] "   " 5).
    vm_compute. reflexivity.
  - apply (search_input_validation ascii_upper ascii_strip eq_refl
             (sample_provider PyNone) [] "Ber" 51).
    + vm_compute. reflexivity.
    + right. lia.
Defined.

Lemma validate_locations_list_spec_witness :
  _validate_locations_list [san_francisco; beyond_the_pole] "sources"
  = Raise (ValidationError "sources[1] latitude must be between -90 and 90").
Proof.
  apply (proj2 (proj2 (validate_locations_list_spec "sources"))
           [san_francisco] beyond_the_pole []).
  - repeat constructor.
  - vm_compute. reflexivity.
Defined.

Lemma empty_feature_plain : plain_feature (PyDict ∅).
Proof.
  exists ∅, ∅, []. split; [reflexivity|]. split; [reflexivity|].
  split; [left; reflexivity | reflexivity].
Qed.

Lemma search_keeps_order_witness :
  exists results,
    fst (geocode ascii_upper ascii_strip (sample_provider (PyDict mixed_response))
           "Berlin" []) = Ok results /\
    raw_data <$> results = [PyDict berlin_feature].
Proof.
  destruct (search_keeps_order ascii_upper ascii_strip eq_refl
              (sample_provider (PyDict mixed_response)) mixed_response
              [PyDict berlin_feature; PyDict ∅] "Berlin" 5 [])
    as [(results & Hres & Hraw & _) _].
  - apply decoded_by_sample.
  - vm_compute. reflexivity.
  - repeat constructor; [apply berlin_feature_plain | apply empty_feature_plain].
  - vm_compute. reflexivity.
  - exists results. split; [exact Hres|]. rewrite Hraw. vm_compute. reflexivity.
Defined.

Lemma reverse_geocode_addresses_witness :
  fst (reverse_geocode ascii_upper (sample_provider (PyDict mixed_response))
         san_francisco [])
  = Ok [feature_address (PyDict berlin_feature); feature_address (PyDict ∅)].
Proof.
  apply (reverse_geocode_addresses ascii_upper eq_refl
           (sample_provider (PyDict mixed_response)) mixed_response
           [PyDict berlin_feature; PyDict ∅] sf_point []).
  - apply decoded_by_sample.
  - vm_compute. reflexivity.
  - repeat constructor.
    + exists berlin_feature, ∅. split; [reflexivity | vm_compute; reflexivity].
    + exists ∅, ∅. split; reflexivity.
  - reflexivity.
Defined.

Lemma route_first_feature_witness :
  fst (route ascii_upper ascii_format (sample_provider (PyDict measured_response))
         san_francisco san_francisco DRIVING []) = Ok test_route.
Proof.
  apply (route_first_feature ascii_upper ascii_format eq_refl
           (sample_provider (PyDict measured_response)) sf_point sf_point DRIVING
           measured_response measured_feature measured_props [PyDict ∅]
           (PyInt 5000) (PyInt 300)).
  - reflexivity.
  - reflexivity.
  - apply decoded_by_sample.
  - vm_compute. reflexivity.
  - vm_compute. reflexivity.
  - vm_compute. reflexivity.
  - vm_compute. reflexivity.
  - discriminate.
  - discriminate.
  - vm_compute. reflexivity.
  - vm_compute. reflexivity.
Defined.

Lemma mapping_locations_raise_witness :
  reverse_geocode ascii_upper (sample_provider PyNone)
    (ObjValue (PyDict sf_mapping)) []
  = (Raise (AttributeError "'dict' object has no attribute 'latitude'"), []).
Proof.
  apply (mapping_locations_raise ascii_upper ascii_format (sample_provider PyNone)
           sf_mapping []).
  vm_compute. reflexivity.
Defined.

Lemma address_to_dict_lookup_witness :
  Address_to_dict berlin_address !! "city" = Some (PyStr "Berlin").
Proof.
  apply (address_to_dict_lookup berlin_address "city" (PyStr "Berlin")).
  split; [|discriminate].
  vm_compute. do 2 apply list_elem_of_further. apply list_elem_of_here.
Defined.

Lemma address_round_trip_witness :
  Address_to_dict (props_address berlin_props) !! "house_number"
  = Some (PyStr "1") /\
  Address_to_dict (props_address berlin_props) !! "state" = None.
Proof.
  split.
  - rewrite (address_round_trip berlin_props (props_address berlin_props)
               "house_number" "housenumber" eq_refl).
    + vm_compute. reflexivity.
    + unfold wire_names. apply list_elem_of_further, list_elem_of_here.
  - rewrite (address_round_trip berlin_props (props_address berlin_props)
               "state" "state" eq_refl).
    + vm_compute. reflexivity.
    + unfold wire_names. do 6 apply list_elem_of_further. apply list_elem_of_here.
Defined.

Lemma address_to_query_params_lookup_witness :
  Address_to_query_params berlin_address !! "country_code" = None /\
  Address_to_query_params berlin_address !! "postcode" = None /\
  Address_to_query_params berlin_address !! "city" = Some (PyStr "Berlin").
Proof.
  destruct (address_to_query_params_lookup berlin_address)
    as (_ & _ & Hcity & Hpost & _ & Hother).
  split; [|split].
  - apply Hother. unfold query_param_names.
    rewrite !not_elem_of_cons. repeat split; try discriminate.
    apply not_elem_of_nil.
  - exact Hpost.
  - exact Hcity.
Defined.

Lemma route_info_accessors_bounds_witness :
  exists m,
    RouteInfo_distance backward_route = Ok m /\
    (Qabs (inject_Z m) <= Qabs (-125 # 256))%Q.
Proof.
  destruct (proj1 (route_info_accessors_bounds backward_route)
              (-8796093022208000 # 18014398509481984)%Q)
    as (m & Hm & Hle & _).
  - vm_compute. reflexivity.
  - exists m. split; [exact Hm|].
    eapply Qle_trans; [exact Hle|]. vm_compute. discriminate.
Defined.

Lemma validate_location_messages_witness :
  _validate_location beyond_the_pole "target"
  = Raise (ValidationError "target latitude must be between -90 and 90").
Proof.
  apply (proj1 (proj2 (proj2 (validate_location_messages "target"))
                  beyond_the_pole (PyInt 91) (PyInt 0) (inject_Z 91) (inject_Z 0)
                  ltac:(vm_compute; reflexivity) eq_refl eq_refl)).
  right. reflexivity.
Defined.

Lemma distance_matrix_rejections_witness :
  distance_matrix ascii_upper ascii_format (sample_provider PyNone)
    [san_francisco] [] DRIVING KILOMETERS []
  = (Raise (ValidationError "targets must not be empty"), []).
Proof.
  apply (distance_matrix_rejections ascii_upper ascii_format
           (sample_provider PyNone) [san_francisco] [] DRIVING KILOMETERS []).
  - reflexivity.
  - reflexivity.
Defined.

